(** * ChessLock: the session integrity monitor of [main.js]

    A shallow embedding of the environment probes, the violation
    evaluation and the warning / termination state machine of the
    Electron main process, with the properties its specification states.

    Conventions of the model.
    - JavaScript strings are [string]s of 7-bit characters: the probes read
      the output of [pgrep], [ioreg], [lsof] and [system_profiler].
      [toLowerCase] and [trim] are those of JavaScript on such strings;
      a character above 127 is left as it is, whereas JavaScript
      lower-cases U+212A to [k] and U+0130 to [i] with a combining dot, and
      trims U+00A0.
    - JavaScript numbers that count things are [Z].
    - [execAsync] either resolves with the command's standard output or
      rejects; an [await] of a rejected promise throws, which is the error
      monad [sum ExecError].
    - The module-level [let] variables of [main.js] are the fields of one
      [State] record that every handler receives and returns.
    - [BrowserWindow.close()] asks a window to close; the window is
      destroyed when its [closed] event comes, which is an event of the
      model like a timer firing or a message of the renderer. *)

From Stdlib Require Import String Ascii List ZArith Bool Lia Arith.
From Stdlib Require Import DecimalString.
From ExtLib Require Import Structures.Monad Structures.MonadExc.
From ExtLib Require Import Data.Monads.EitherMonad.
Import ListNotations.
Import MonadNotation.
Local Open Scope string_scope.
Local Open Scope monad_scope.

(* ===================================================================== *)
(** ** JavaScript string primitives used by the probes *)
(* ===================================================================== *)

Module JsString.

Definition LF : ascii := "010"%char.

(** [hay.includes(needle)] *)
Fixpoint includes (needle hay : string) : bool :=
  prefix needle hay ||
  match hay with
  | EmptyString => false
  | String _ rest => includes needle rest
  end.

Definition lower_char (c : ascii) : ascii :=
  let n := nat_of_ascii c in
  if (65 <=? n)%nat && (n <=? 90)%nat then ascii_of_nat (n + 32) else c.

(** [s.toLowerCase()], on 7-bit characters *)
Fixpoint toLowerCase (s : string) : string :=
  match s with
  | EmptyString => EmptyString
  | String c rest => String (lower_char c) (toLowerCase rest)
  end.

(** White space removed by [trim]: TAB, LF, VT, FF, CR and SPACE. *)
Definition is_space (c : ascii) : bool :=
  let n := nat_of_ascii c in
  ((9 <=? n)%nat && (n <=? 13)%nat) || (n =? 32)%nat.

Fixpoint trimStart (s : string) : string :=
  match s with
  | EmptyString => EmptyString
  | String c rest => if is_space c then trimStart rest else s
  end.

Fixpoint trimEnd (s : string) : string :=
  match s with
  | EmptyString => EmptyString
  | String c rest =>
      match trimEnd rest with
      | EmptyString => if is_space c then EmptyString else String c EmptyString
      | kept => String c kept
      end
  end.

(** [s.trim()] *)
Definition trim (s : string) : string := trimEnd (trimStart s).

Definition is_empty (s : string) : bool :=
  match s with EmptyString => true | _ => false end.

(** [s.split('\n')] *)
Fixpoint split_lf (s : string) : list string :=
  match s with
  | EmptyString => [EmptyString]
  | String c rest =>
      if Ascii.eqb c LF then EmptyString :: split_lf rest
      else match split_lf rest with
           | [] => [String c EmptyString]
           | line :: lines => String c line :: lines
           end
  end.

(** The character class [[A-Za-z]]. *)
Definition is_letter (c : ascii) : bool :=
  let n := nat_of_ascii c in
  ((65 <=? n)%nat && (n <=? 90)%nat) || ((97 <=? n)%nat && (n <=? 122)%nat).

End JsString.
Import JsString.

(* ===================================================================== *)
(** ** Environment probes *)
(* ===================================================================== *)

(** The shell commands the probes run. *)
Inductive Command : Type :=
| PgrepZoom          (* pgrep -x zoom.us || pgrep -f zoom.us || echo *)
| IoregCamera        (* ioreg -l | grep CameraStreaming|CameraActive | grep -i Yes *)
| PgrepShare         (* pgrep -f zoomshare|CptHost *)
| LsofZoom           (* lsof -c zoom.us | grep -i windowserver|skylight *)
| ProfilerBluetooth  (* system_profiler SPBluetoothDataType | grep ... | head -1 *)
| ProfilerUsb.       (* system_profiler SPUSBDataType *)

(** Outcome of one [execAsync]: the promise resolves with [stdout] or rejects. *)
Inductive ExecOutcome : Type :=
| Resolved (stdout : string)
| Rejected.

(** What the operating system answers to each command. *)
Definition OS : Type := Command -> ExecOutcome.

Inductive ExecError : Type := CommandFailed.

(** An [async] function body: it completes with a value or throws. *)
Definition Async : Type -> Type := sum ExecError.

(** [await execAsync(cmd)] *)
Definition execAsync (os : OS) (cmd : Command) : Async string :=
  match os cmd with
  | Resolved stdout => ret stdout
  | Rejected => raise CommandFailed
  end.

Record ZoomResult : Type := {
  zoomRunning : bool;
  cameraInUse : bool;
  screenSharing : bool
}.

Record BluetoothResult : Type := { bluetoothEnabled : bool }.

Record UsbResult : Type := { hasUsbDevices : bool; count : Z }.

(** [s.trim().length > 0] *)
Definition nonblank (s : string) : bool := (0 <? String.length (trim s))%nat.

(** [checkZoomCamera], main.js lines 24-70. *)
Definition checkZoomCamera (os : OS) : Async ZoomResult :=
  catch
    (psOutput <- execAsync os PgrepZoom ;;
     let zoomRunning := nonblank psOutput in
     if negb zoomRunning then
       ret {| zoomRunning := false; cameraInUse := false; screenSharing := false |}
     else
       cameraInUse <-
         catch (ioregOutput <- execAsync os IoregCamera ;;
                ret (nonblank ioregOutput))
               (fun _ => ret false) ;;
       screenSharing <-
         catch (shareOutput <- execAsync os PgrepShare ;;
                if nonblank shareOutput then ret true
                else
                  lsofOutput <- execAsync os LsofZoom ;;
                  ret (nonblank lsofOutput))
               (fun _ => ret false) ;;
       ret {| zoomRunning := true; cameraInUse := cameraInUse;
              screenSharing := screenSharing |})
    (fun _ =>
       ret {| zoomRunning := false; cameraInUse := false; screenSharing := false |}).

(** [checkBluetooth], main.js lines 86-101. *)
Definition checkBluetooth (os : OS) : Async BluetoothResult :=
  catch
    (stdout <- execAsync os ProfilerBluetooth ;;
     let isOn := includes ": on" (toLowerCase stdout) in
     ret {| bluetoothEnabled := isOn |})
    (fun _ => ret {| bluetoothEnabled := false |}).

(** The denylist of main.js lines 135-140. *)
Definition internalPatterns : list string :=
  [ "hub"; "internal"; "built-in"; "bluetooth"; "apple";
    "host controller"; "root hub"; "usb bus"; "usb 3"; "usb 2"; "usb3"; "usb2";
    "bus"; "touch bar"; "ambient light sensor"; "facetime"; "headset";
    "card reader"; "trackpad"; "keyboard"; "ibridge"; "sensor"; "controller" ].

(** [/^    [A-Za-z]/.test(line) && !/^      /.test(line)] *)
Definition is_device_line (line : string) : bool :=
  match line with
  | String " " (String " " (String " " (String " " (String c _)))) => is_letter c
  | _ => false
  end
  && negb (prefix "      " line).

(** The three [let] variables of the parsing loop. *)
Record UsbScan : Type := {
  externalDeviceCount : Z;
  currentDevice : string;
  isExternalDevice : bool
}.

(** One iteration of [for (const line of lines)], lines 124-146. *)
Definition usb_scan_line (st : UsbScan) (line : string) : UsbScan :=
  if is_device_line line then
    let n := if isExternalDevice st then (externalDeviceCount st + 1)%Z
             else externalDeviceCount st in
    let dev := toLowerCase (trim line) in
    {| externalDeviceCount := n;
       currentDevice := dev;
       isExternalDevice :=
         negb (existsb (fun pattern => includes pattern dev) internalPatterns) |}
  else st.

(** [!stdout || stdout.trim() === '' || stdout.includes('No USB')] *)
Definition usb_no_data (stdout : string) : bool :=
  is_empty stdout || is_empty (trim stdout) || includes "No USB" stdout.

(** The loop over the lines and the [// Check last device] step,
    lines 119-153. *)
Definition usb_scan (stdout : string) : Z :=
  let lines := split_lf stdout in
  let st := fold_left usb_scan_line lines
              {| externalDeviceCount := 0; currentDevice := EmptyString;
                 isExternalDevice := false |} in
  if isExternalDevice st then (externalDeviceCount st + 1)%Z
  else externalDeviceCount st.

(** The body of the [try] block once the command has answered. *)
Definition usb_count_of_output (stdout : string) : Z :=
  if usb_no_data stdout then 0%Z else usb_scan stdout.

(** [getUsbDeviceCount], main.js lines 104-157. *)
Definition getUsbDeviceCount (os : OS) : Async Z :=
  catch
    (stdout <- execAsync os ProfilerUsb ;;
     ret (usb_count_of_output stdout))
    (fun _ => ret 0%Z).

(** [checkUsbDevices], main.js lines 160-166. *)
Definition usbResultOf (n : Z) : UsbResult :=
  {| hasUsbDevices := (0 <? n)%Z; count := n |}.

Definition checkUsbDevices (os : OS) : Async UsbResult :=
  n <- getUsbDeviceCount os ;;
  ret (usbResultOf n).

(* ===================================================================== *)
(** ** Violation evaluation at the three evaluation sites *)
(* ===================================================================== *)

(** The four values a handler holds after its probing lines:
    [displayResult.length], [zoomResult], [bluetoothResult], [usbResult]. *)
Record Readings : Type := {
  displayResult : Z;
  zoomResult : ZoomResult;
  bluetoothResult : BluetoothResult;
  usbResult : UsbResult
}.

(** The 2-second monitor tick, main.js lines 409-430. *)
Module MonitorSite.
Definition hasDisplayIssue (r : Readings) : bool := (1 <? displayResult r)%Z.
Definition hasCameraIssue (r : Readings) : bool :=
  negb (zoomRunning (zoomResult r)) || negb (cameraInUse (zoomResult r)).
Definition hasBluetoothIssue (r : Readings) : bool :=
  bluetoothEnabled (bluetoothResult r).
Definition hasUsbIssue (r : Readings) : bool := hasUsbDevices (usbResult r).

Definition anyIssue (r : Readings) : bool :=
  hasDisplayIssue r || hasCameraIssue r || hasBluetoothIssue r || hasUsbIssue r.

(** The [if / else if] chain that fills [issueMessage]. *)
Definition issueMessage (r : Readings) : string :=
  if hasDisplayIssue r then "External display detected"
  else if negb (zoomRunning (zoomResult r)) then "Zoom is not running"
  else if negb (cameraInUse (zoomResult r)) then "Camera has been turned off"
  else if hasBluetoothIssue r then "Bluetooth must be disabled"
  else if hasUsbIssue r then "Disconnect all USB devices"
  else EmptyString.

(** [Some msg] when [showWarningWindow(msg)] is called, [None] otherwise. *)
Definition warning (r : Readings) : option string :=
  if anyIssue r then Some (issueMessage r) else None.
End MonitorSite.

(** The 1-second resolve tick, main.js lines 493-501. *)
Module ResolveSite.
Definition hasDisplayIssue (r : Readings) : bool := (1 <? displayResult r)%Z.
Definition hasCameraIssue (r : Readings) : bool :=
  negb (zoomRunning (zoomResult r)) || negb (cameraInUse (zoomResult r)).
Definition hasBluetoothIssue (r : Readings) : bool :=
  bluetoothEnabled (bluetoothResult r).
Definition hasUsbIssue (r : Readings) : bool := hasUsbDevices (usbResult r).

Definition resolved (r : Readings) : bool :=
  negb (hasDisplayIssue r) && negb (hasCameraIssue r)
  && negb (hasBluetoothIssue r) && negb (hasUsbIssue r).
End ResolveSite.

(** The [warning-timer-expired] handler, main.js lines 317-328. *)
Module ExpiredSite.
Definition hasDisplayIssue (r : Readings) : bool := (1 <? displayResult r)%Z.
Definition hasCameraIssue (r : Readings) : bool :=
  negb (zoomRunning (zoomResult r)) || negb (cameraInUse (zoomResult r)).
Definition hasBluetoothIssue (r : Readings) : bool :=
  bluetoothEnabled (bluetoothResult r).
Definition hasUsbIssue (r : Readings) : bool := hasUsbDevices (usbResult r).

Definition anyIssue (r : Readings) : bool :=
  hasDisplayIssue r || hasCameraIssue r || hasBluetoothIssue r || hasUsbIssue r.
End ExpiredSite.

(** The probing lines shared, text for text, by the three sites
    (lines 312-315, 404-407, 488-491) once [screen.getAllDisplays()] has
    answered: three awaits in a row. *)
Definition probeAll (displays : Z) (os : OS) : Async Readings :=
  zoomResult <- checkZoomCamera os ;;
  bluetoothResult <- checkBluetooth os ;;
  usbResult <- checkUsbDevices os ;;
  ret {| displayResult := displays; zoomResult := zoomResult;
         bluetoothResult := bluetoothResult; usbResult := usbResult |}.

(* ===================================================================== *)
(** ** Order of the probe calls inside one tick *)
(* ===================================================================== *)

Module Schedule.

Inductive Probe : Type := Displays | ZoomCamera | Bluetooth | UsbDevices.

Definition probe_eqb (p q : Probe) : bool :=
  match p, q with
  | Displays, Displays | ZoomCamera, ZoomCamera
  | Bluetooth, Bluetooth | UsbDevices, UsbDevices => true
  | _, _ => false
  end.

(** The steps of a handler body that concern the probes. *)
Inductive Instr : Type :=
| CallNow (p : Probe)   (* [const x = f();] with a synchronous [f] *)
| Invoke (p : Probe)    (* the call [f()] of an async [f]: the probe starts *)
| Await (p : Probe)     (* [await] of that call's promise *)
| Evaluate.             (* the [has...Issue] lines *)

(** [const x = await f();] *)
Definition awaitCall (p : Probe) : list Instr := [Invoke p; Await p].

(** main.js lines 404-409. *)
Definition monitorTick : list Instr :=
  [CallNow Displays] ++ awaitCall ZoomCamera ++ awaitCall Bluetooth
  ++ awaitCall UsbDevices ++ [Evaluate].

(** main.js lines 488-493. *)
Definition resolveTick : list Instr :=
  [CallNow Displays] ++ awaitCall ZoomCamera ++ awaitCall Bluetooth
  ++ awaitCall UsbDevices ++ [Evaluate].

(** main.js lines 312-317. *)
Definition warningTimerExpired : list Instr :=
  [CallNow Displays] ++ awaitCall ZoomCamera ++ awaitCall Bluetooth
  ++ awaitCall UsbDevices ++ [Evaluate].

(** Time line of one run of a handler body: the clock, when each probe
    was started, and when the evaluation ran. *)
Record Timeline : Type := {
  clock : nat;
  started : list (Probe * nat);
  evaluatedAt : option nat
}.

Definition startedAt (tl : Timeline) (p : Probe) : option nat :=
  option_map snd (find (fun e => probe_eqb (fst e) p) (started tl)).

(** A probe started at [t] completes at [t + latency p]; an [await]
    resumes the body no earlier than that. *)
Definition exec_instr (latency : Probe -> nat) (tl : Timeline) (i : Instr)
  : Timeline :=
  match i with
  | CallNow p | Invoke p =>
      {| clock := clock tl; started := (p, clock tl) :: started tl;
         evaluatedAt := evaluatedAt tl |}
  | Await p =>
      match startedAt tl p with
      | Some t => {| clock := Nat.max (clock tl) (t + latency p);
                     started := started tl; evaluatedAt := evaluatedAt tl |}
      | None => tl
      end
  | Evaluate =>
      {| clock := clock tl; started := started tl;
         evaluatedAt := Some (clock tl) |}
  end.

Definition exec (latency : Probe -> nat) (body : list Instr) : Timeline :=
  fold_left (exec_instr latency) body
    {| clock := 0; started := []; evaluatedAt := None |}.

Definition is_start (i : Instr) : bool :=
  match i with CallNow _ | Invoke _ => true | _ => false end.
Definition is_await (i : Instr) : bool :=
  match i with Await _ => true | _ => false end.

(** As the specification words it: all four probes are issued before any
    is awaited. *)
Fixpoint issued_before_any_await (body : list Instr) : bool :=
  match body with
  | [] => true
  | i :: rest =>
      (if is_await i then negb (existsb is_start rest) else true)
      && issued_before_any_await rest
  end.

End Schedule.

(* ===================================================================== *)
(** ** Session state *)
(* ===================================================================== *)

(** Timers and windows are known to the program through handles. *)
Definition Handle : Type := nat.

Inductive TimerKind : Type :=
| MonitorTimer    (* the callback of [startActiveMonitoring], every 2000 ms *)
| ResolveTimer.   (* the callback of [showWarningWindow], every 1000 ms *)

(** What main.js has last loaded into the main window: [start.html]
    (line 187), [GAME_URL] (line 303), [terminated.html] (line 558), or the
    URL of the window-open handler (line 234). *)
Inductive Page : Type :=
| StartPage
| GamePage
| TerminatedPage
| LoadedUrl (url : string).

(** An [async] callback parked at its awaits; it keeps the display count
    it read before the first [await]. *)
Inductive Suspended : Type :=
| SuspMonitor (displays : Z)
| SuspResolve (displays : Z)
| SuspExpired (displays : Z).

Record State : Type := {
  (* the [let] variables of main.js, lines 72-80 *)
  proctorStarted : bool;
  sessionTerminated : bool;
  isShowingWarning : bool;
  monitoringInterval : option Handle;
  resolveCheckInterval : option Handle;
  warningWindow : option Handle;
  (* what Node and Electron hold for the process *)
  timers : list (Handle * TimerKind);
  warningSurfaces : list (Handle * string);
  closing : list Handle;
  mainContent : Page;
  mainSimpleFullScreen : bool;
  mainClosable : bool;
  startTimeouts : nat;
  endTimeouts : nat;
  suspended : list Suspended;
  nextHandle : Handle;
  quitRequested : bool
}.

(** [timers]: the live [setInterval] timers.  [warningSurfaces]: the
    warning windows that exist (created and not destroyed), each with the
    issue text it was loaded with.  [closing]: the windows among them on
    which [close()] was called.  [startTimeouts], [endTimeouts]: pending
    [setTimeout] callbacks of [start-proctor] and [end-proctor].
    [suspended]: callbacks parked at an [await].  [quitRequested]:
    [app.quit()] was called.  The main window is taken to exist as long as
    the process runs.

    [close()] asks a window to close and returns.  The window is destroyed
    when its [closed] event is delivered, which is an event of its own
    ([WarningSurfaceClosed] below): it may follow the call at once, later,
    or never, and it may come for a window that was never asked to close.
    Until then the window exists and [isDestroyed()] is false. *)

Definition set_isShowingWarning (v : bool) (s : State) : State :=
  {| proctorStarted := proctorStarted s;
     sessionTerminated := sessionTerminated s; isShowingWarning := v;
     monitoringInterval := monitoringInterval s;
     resolveCheckInterval := resolveCheckInterval s;
     warningWindow := warningWindow s; timers := timers s;
     warningSurfaces := warningSurfaces s; closing := closing s;
     mainContent := mainContent s;
     mainSimpleFullScreen := mainSimpleFullScreen s;
     mainClosable := mainClosable s; startTimeouts := startTimeouts s;
     endTimeouts := endTimeouts s; suspended := suspended s;
     nextHandle := nextHandle s; quitRequested := quitRequested s |}.

Definition set_sessionTerminated (v : bool) (s : State) : State :=
  {| proctorStarted := proctorStarted s; sessionTerminated := v;
     isShowingWarning := isShowingWarning s;
     monitoringInterval := monitoringInterval s;
     resolveCheckInterval := resolveCheckInterval s;
     warningWindow := warningWindow s; timers := timers s;
     warningSurfaces := warningSurfaces s; closing := closing s;
     mainContent := mainContent s;
     mainSimpleFullScreen := mainSimpleFullScreen s;
     mainClosable := mainClosable s; startTimeouts := startTimeouts s;
     endTimeouts := endTimeouts s; suspended := suspended s;
     nextHandle := nextHandle s; quitRequested := quitRequested s |}.

Definition set_proctorStarted (v : bool) (s : State) : State :=
  {| proctorStarted := v; sessionTerminated := sessionTerminated s;
     isShowingWarning := isShowingWarning s;
     monitoringInterval := monitoringInterval s;
     resolveCheckInterval := resolveCheckInterval s;
     warningWindow := warningWindow s; timers := timers s;
     warningSurfaces := warningSurfaces s; closing := closing s;
     mainContent := mainContent s;
     mainSimpleFullScreen := mainSimpleFullScreen s;
     mainClosable := mainClosable s; startTimeouts := startTimeouts s;
     endTimeouts := endTimeouts s; suspended := suspended s;
     nextHandle := nextHandle s; quitRequested := quitRequested s |}.

Definition set_monitoringInterval (v : option Handle) (s : State) : State :=
  {| proctorStarted := proctorStarted s;
     sessionTerminated := sessionTerminated s;
     isShowingWarning := isShowingWarning s; monitoringInterval := v;
     resolveCheckInterval := resolveCheckInterval s;
     warningWindow := warningWindow s; timers := timers s;
     warningSurfaces := warningSurfaces s; closing := closing s;
     mainContent := mainContent s;
     mainSimpleFullScreen := mainSimpleFullScreen s;
     mainClosable := mainClosable s; startTimeouts := startTimeouts s;
     endTimeouts := endTimeouts s; suspended := suspended s;
     nextHandle := nextHandle s; quitRequested := quitRequested s |}.

Definition set_resolveCheckInterval (v : option Handle) (s : State) : State :=
  {| proctorStarted := proctorStarted s;
     sessionTerminated := sessionTerminated s;
     isShowingWarning := isShowingWarning s;
     monitoringInterval := monitoringInterval s; resolveCheckInterval := v;
     warningWindow := warningWindow s; timers := timers s;
     warningSurfaces := warningSurfaces s; closing := closing s;
     mainContent := mainContent s;
     mainSimpleFullScreen := mainSimpleFullScreen s;
     mainClosable := mainClosable s; startTimeouts := startTimeouts s;
     endTimeouts := endTimeouts s; suspended := suspended s;
     nextHandle := nextHandle s; quitRequested := quitRequested s |}.

Definition set_warningWindow (v : option Handle) (s : State) : State :=
  {| proctorStarted := proctorStarted s;
     sessionTerminated := sessionTerminated s;
     isShowingWarning := isShowingWarning s;
     monitoringInterval := monitoringInterval s;
     resolveCheckInterval := resolveCheckInterval s; warningWindow := v;
     timers := timers s; warningSurfaces := warningSurfaces s;
     closing := closing s; mainContent := mainContent s;
     mainSimpleFullScreen := mainSimpleFullScreen s;
     mainClosable := mainClosable s; startTimeouts := startTimeouts s;
     endTimeouts := endTimeouts s; suspended := suspended s;
     nextHandle := nextHandle s; quitRequested := quitRequested s |}.

Definition set_timers (v : list (Handle * TimerKind)) (s : State) : State :=
  {| proctorStarted := proctorStarted s;
     sessionTerminated := sessionTerminated s;
     isShowingWarning := isShowingWarning s;
     monitoringInterval := monitoringInterval s;
     resolveCheckInterval := resolveCheckInterval s;
     warningWindow := warningWindow s; timers := v;
     warningSurfaces := warningSurfaces s; closing := closing s;
     mainContent := mainContent s;
     mainSimpleFullScreen := mainSimpleFullScreen s;
     mainClosable := mainClosable s; startTimeouts := startTimeouts s;
     endTimeouts := endTimeouts s; suspended := suspended s;
     nextHandle := nextHandle s; quitRequested := quitRequested s |}.

Definition set_warningSurfaces (v : list (Handle * string)) (s : State) : State :=
  {| proctorStarted := proctorStarted s;
     sessionTerminated := sessionTerminated s;
     isShowingWarning := isShowingWarning s;
     monitoringInterval := monitoringInterval s;
     resolveCheckInterval := resolveCheckInterval s;
     warningWindow := warningWindow s; timers := timers s;
     warningSurfaces := v; closing := closing s;
     mainContent := mainContent s;
     mainSimpleFullScreen := mainSimpleFullScreen s;
     mainClosable := mainClosable s; startTimeouts := startTimeouts s;
     endTimeouts := endTimeouts s; suspended := suspended s;
     nextHandle := nextHandle s; quitRequested := quitRequested s |}.

Definition set_closing (v : list Handle) (s : State) : State :=
  {| proctorStarted := proctorStarted s;
     sessionTerminated := sessionTerminated s;
     isShowingWarning := isShowingWarning s;
     monitoringInterval := monitoringInterval s;
     resolveCheckInterval := resolveCheckInterval s;
     warningWindow := warningWindow s; timers := timers s;
     warningSurfaces := warningSurfaces s; closing := v;
     mainContent := mainContent s;
     mainSimpleFullScreen := mainSimpleFullScreen s;
     mainClosable := mainClosable s; startTimeouts := startTimeouts s;
     endTimeouts := endTimeouts s; suspended := suspended s;
     nextHandle := nextHandle s; quitRequested := quitRequested s |}.

Definition set_mainContent (v : Page) (s : State) : State :=
  {| proctorStarted := proctorStarted s;
     sessionTerminated := sessionTerminated s;
     isShowingWarning := isShowingWarning s;
     monitoringInterval := monitoringInterval s;
     resolveCheckInterval := resolveCheckInterval s;
     warningWindow := warningWindow s; timers := timers s;
     warningSurfaces := warningSurfaces s; closing := closing s;
     mainContent := v; mainSimpleFullScreen := mainSimpleFullScreen s;
     mainClosable := mainClosable s; startTimeouts := startTimeouts s;
     endTimeouts := endTimeouts s; suspended := suspended s;
     nextHandle := nextHandle s; quitRequested := quitRequested s |}.

Definition set_mainSimpleFullScreen (v : bool) (s : State) : State :=
  {| proctorStarted := proctorStarted s;
     sessionTerminated := sessionTerminated s;
     isShowingWarning := isShowingWarning s;
     monitoringInterval := monitoringInterval s;
     resolveCheckInterval := resolveCheckInterval s;
     warningWindow := warningWindow s; timers := timers s;
     warningSurfaces := warningSurfaces s; closing := closing s;
     mainContent := mainContent s; mainSimpleFullScreen := v;
     mainClosable := mainClosable s; startTimeouts := startTimeouts s;
     endTimeouts := endTimeouts s; suspended := suspended s;
     nextHandle := nextHandle s; quitRequested := quitRequested s |}.

Definition set_mainClosable (v : bool) (s : State) : State :=
  {| proctorStarted := proctorStarted s;
     sessionTerminated := sessionTerminated s;
     isShowingWarning := isShowingWarning s;
     monitoringInterval := monitoringInterval s;
     resolveCheckInterval := resolveCheckInterval s;
     warningWindow := warningWindow s; timers := timers s;
     warningSurfaces := warningSurfaces s; closing := closing s;
     mainContent := mainContent s;
     mainSimpleFullScreen := mainSimpleFullScreen s; mainClosable := v;
     startTimeouts := startTimeouts s; endTimeouts := endTimeouts s;
     suspended := suspended s; nextHandle := nextHandle s;
     quitRequested := quitRequested s |}.

Definition set_startTimeouts (v : nat) (s : State) : State :=
  {| proctorStarted := proctorStarted s;
     sessionTerminated := sessionTerminated s;
     isShowingWarning := isShowingWarning s;
     monitoringInterval := monitoringInterval s;
     resolveCheckInterval := resolveCheckInterval s;
     warningWindow := warningWindow s; timers := timers s;
     warningSurfaces := warningSurfaces s; closing := closing s;
     mainContent := mainContent s;
     mainSimpleFullScreen := mainSimpleFullScreen s;
     mainClosable := mainClosable s; startTimeouts := v;
     endTimeouts := endTimeouts s; suspended := suspended s;
     nextHandle := nextHandle s; quitRequested := quitRequested s |}.

Definition set_endTimeouts (v : nat) (s : State) : State :=
  {| proctorStarted := proctorStarted s;
     sessionTerminated := sessionTerminated s;
     isShowingWarning := isShowingWarning s;
     monitoringInterval := monitoringInterval s;
     resolveCheckInterval := resolveCheckInterval s;
     warningWindow := warningWindow s; timers := timers s;
     warningSurfaces := warningSurfaces s; closing := closing s;
     mainContent := mainContent s;
     mainSimpleFullScreen := mainSimpleFullScreen s;
     mainClosable := mainClosable s; startTimeouts := startTimeouts s;
     endTimeouts := v; suspended := suspended s; nextHandle := nextHandle s;
     quitRequested := quitRequested s |}.

Definition set_suspended (v : list Suspended) (s : State) : State :=
  {| proctorStarted := proctorStarted s;
     sessionTerminated := sessionTerminated s;
     isShowingWarning := isShowingWarning s;
     monitoringInterval := monitoringInterval s;
     resolveCheckInterval := resolveCheckInterval s;
     warningWindow := warningWindow s; timers := timers s;
     warningSurfaces := warningSurfaces s; closing := closing s;
     mainContent := mainContent s;
     mainSimpleFullScreen := mainSimpleFullScreen s;
     mainClosable := mainClosable s; startTimeouts := startTimeouts s;
     endTimeouts := endTimeouts s; suspended := v;
     nextHandle := nextHandle s; quitRequested := quitRequested s |}.

Definition set_nextHandle (v : Handle) (s : State) : State :=
  {| proctorStarted := proctorStarted s;
     sessionTerminated := sessionTerminated s;
     isShowingWarning := isShowingWarning s;
     monitoringInterval := monitoringInterval s;
     resolveCheckInterval := resolveCheckInterval s;
     warningWindow := warningWindow s; timers := timers s;
     warningSurfaces := warningSurfaces s; closing := closing s;
     mainContent := mainContent s;
     mainSimpleFullScreen := mainSimpleFullScreen s;
     mainClosable := mainClosable s; startTimeouts := startTimeouts s;
     endTimeouts := endTimeouts s; suspended := suspended s;
     nextHandle := v; quitRequested := quitRequested s |}.

Definition set_quitRequested (v : bool) (s : State) : State :=
  {| proctorStarted := proctorStarted s;
     sessionTerminated := sessionTerminated s;
     isShowingWarning := isShowingWarning s;
     monitoringInterval := monitoringInterval s;
     resolveCheckInterval := resolveCheckInterval s;
     warningWindow := warningWindow s; timers := timers s;
     warningSurfaces := warningSurfaces s; closing := closing s;
     mainContent := mainContent s;
     mainSimpleFullScreen := mainSimpleFullScreen s;
     mainClosable := mainClosable s; startTimeouts := startTimeouts s;
     endTimeouts := endTimeouts s; suspended := suspended s;
     nextHandle := nextHandle s; quitRequested := v |}.

Definition init : State :=
  {| proctorStarted := false; sessionTerminated := false;
     isShowingWarning := false; monitoringInterval := None;
     resolveCheckInterval := None; warningWindow := None; timers := [];
     warningSurfaces := []; closing := []; mainContent := StartPage;
     mainSimpleFullScreen := false; mainClosable := true;
     startTimeouts := 0; endTimeouts := 0; suspended := []; nextHandle := 0;
     quitRequested := false |}.

(** The states of the specification, read off the three flags. *)
Inductive Phase : Type := Idle | Active | Warning | Terminated.

Definition phase (s : State) : Phase :=
  if sessionTerminated s then Terminated
  else if isShowingWarning s then Warning
  else if proctorStarted s then Active
  else Idle.

(* ===================================================================== *)
(** ** Timers and warning windows *)
(* ===================================================================== *)

(** [setInterval(callback, ms)] *)
Definition setInterval (k : TimerKind) (s : State) : Handle * State :=
  let h := nextHandle s in
  (h, set_nextHandle (S h) (set_timers ((h, k) :: timers s) s)).

(** [clearInterval(h)] *)
Definition clearInterval (h : Handle) (s : State) : State :=
  set_timers (filter (fun t => negb (fst t =? h)%nat) (timers s)) s.

(** [new BrowserWindow({...})] and [loadFile('warning.html', {query: {issue}})] *)
Definition openWarningSurface (issue : string) (s : State) : Handle * State :=
  let w := nextHandle s in
  (w, set_nextHandle (S w) (set_warningSurfaces ((w, issue) :: warningSurfaces s) s)).

(** [!w.isDestroyed()] *)
Definition surface_open (s : State) (w : Handle) : bool :=
  existsb (fun x => (fst x =? w)%nat) (warningSurfaces s).

(** [w.close()]: the window is asked to close. *)
Definition requestClose (w : Handle) (s : State) : State :=
  set_closing (w :: closing s) s.

(** The window [w] is destroyed, and its [closed] listener (lines 475-477)
    runs: [warningWindow = null], whichever window the variable holds. *)
Definition surfaceClosed (w : Handle) (s : State) : State :=
  set_warningWindow None
    (set_closing (filter (fun x => negb (x =? w)%nat) (closing s))
       (set_warningSurfaces
          (filter (fun x => negb (fst x =? w)%nat) (warningSurfaces s)) s)).

(** [warningWindow && !warningWindow.isDestroyed()] *)
Definition warningWindowLive (s : State) : bool :=
  match warningWindow s with
  | Some w => surface_open s w
  | None => false
  end.

(** [if (resolveCheckInterval) { clearInterval(...); resolveCheckInterval = null; }] *)
Definition stopResolveCheck (s : State) : State :=
  match resolveCheckInterval s with
  | Some h => set_resolveCheckInterval None (clearInterval h s)
  | None => s
  end.

(** [if (monitoringInterval) { clearInterval(...); monitoringInterval = null; }] *)
Definition stopMonitoring (s : State) : State :=
  match monitoringInterval s with
  | Some h => set_monitoringInterval None (clearInterval h s)
  | None => s
  end.

(** [if (warningWindow && !warningWindow.isDestroyed()) { warningWindow.close();
    warningWindow = null; }] *)
Definition closeWarningIfOpen (s : State) : State :=
  match warningWindow s with
  | Some w => if surface_open s w then set_warningWindow None (requestClose w s)
              else s
  | None => s
  end.

(* ===================================================================== *)
(** ** The functions of the state machine *)
(* ===================================================================== *)

(** [showWarningWindow(issue)], main.js lines 434-503. *)
Definition showWarningWindow (issue : string) (s : State) : State :=
  if isShowingWarning s || sessionTerminated s then s
  else if warningWindowLive s then s
  else
    let s := set_isShowingWarning true s in
    let s := stopResolveCheck s in
    let (w, s) := openWarningSurface issue s in
    let s := set_warningWindow (Some w) s in
    let (h, s) := setInterval ResolveTimer s in
    set_resolveCheckInterval (Some h) s.

(** [closeWarningWindow()], main.js lines 505-522.  The message
    [issue-resolved] that it sends to the page before [close()] is not part
    of the state. *)
Definition closeWarningWindow (s : State) : State :=
  let s := stopResolveCheck s in
  let s := closeWarningIfOpen s in
  set_isShowingWarning false s.

(** [terminateChessSession()], main.js lines 524-559. *)
Definition terminateChessSession (s : State) : State :=
  let s := set_sessionTerminated true s in
  let s := set_isShowingWarning false s in
  let s := stopMonitoring s in
  let s := stopResolveCheck s in
  let s := closeWarningIfOpen s in
  let s := set_mainSimpleFullScreen false s in
  set_mainContent TerminatedPage s.

(** [startActiveMonitoring()], main.js lines 397-432. *)
Definition startActiveMonitoring (s : State) : State :=
  let (h, s) := setInterval MonitorTimer s in
  set_monitoringInterval (Some h) s.

Definition suspend (k : Suspended) (s : State) : State :=
  set_suspended (suspended s ++ [k]) s.

(** The monitor callback up to its first [await], lines 401-405. *)
Definition monitorTick (displays : Z) (s : State) : State :=
  if sessionTerminated s || isShowingWarning s then s
  else suspend (SuspMonitor displays) s.

(** The monitor callback after its awaits, lines 409-430. *)
Definition monitorResume (displays : Z) (os : OS) (s : State) : State :=
  match probeAll displays os with
  | inr r =>
      match MonitorSite.warning r with
      | Some issueMessage => showWarningWindow issueMessage s
      | None => s
      end
  | inl _ => s
  end.

(** The resolve callback up to its first [await], lines 481-489. *)
Definition resolveTick (displays : Z) (s : State) : State :=
  if negb (isShowingWarning s) || sessionTerminated s then
    set_resolveCheckInterval None
      (match resolveCheckInterval s with
       | Some h => clearInterval h s
       | None => s
       end)
  else suspend (SuspResolve displays) s.

(** The resolve callback after its awaits, lines 493-501. *)
Definition resolveResume (displays : Z) (os : OS) (s : State) : State :=
  match probeAll displays os with
  | inr r => if ResolveSite.resolved r then closeWarningWindow s else s
  | inl _ => s
  end.

(** [ipcMain.on('warning-timer-expired')] up to its first [await]. *)
Definition onWarningTimerExpired (displays : Z) (s : State) : State :=
  suspend (SuspExpired displays) s.

(** The same handler after its awaits, lines 317-328. *)
Definition expiredResume (displays : Z) (os : OS) (s : State) : State :=
  match probeAll displays os with
  | inr r => if ExpiredSite.anyIssue r then terminateChessSession s
             else closeWarningWindow s
  | inl _ => s
  end.

(** [ipcMain.on('start-proctor')], main.js lines 272-305. *)
Definition onStartProctor (s : State) : State :=
  if negb (proctorStarted s) then
    let s := set_proctorStarted true s in
    let s := set_mainClosable false s in
    let s := set_mainSimpleFullScreen true s in
    let s := set_startTimeouts (S (startTimeouts s)) s in
    set_mainContent GamePage s
  else s.

(** The [setTimeout] callback of [start-proctor], lines 290-298. *)
Definition startTimeout (s : State) : State :=
  let s := set_startTimeouts (pred (startTimeouts s)) s in
  let s := set_mainClosable false s in
  startActiveMonitoring s.

(** [ipcMain.on('end-proctor')], main.js lines 339-368. *)
Definition onEndProctor (s : State) : State :=
  let s := stopMonitoring s in
  let s := closeWarningIfOpen s in
  let s := set_mainSimpleFullScreen false s in
  let s := set_mainClosable true s in
  set_endTimeouts (S (endTimeouts s)) s.

(** The [setTimeout] callback of [end-proctor]: [app.quit()]. *)
Definition endTimeout (s : State) : State :=
  set_quitRequested true (set_endTimeouts (pred (endTimeouts s)) s).

(** [ipcMain.on('terminate-proctor')]: [app.quit()]. *)
Definition onTerminateProctor (s : State) : State := set_quitRequested true s.

Inductive WindowOpenAction : Type := DenyOpen | AllowOpen.

(** What the callback of [setWindowOpenHandler] (lines 232-238) does with a
    URL: the URL it loads into the main window, if any, and the action it
    returns. *)
Definition windowOpenHandler (url : string) : option string * WindowOpenAction :=
  if includes "chess.com" url || includes "buddyboardgames.com" url
  then (Some url, DenyOpen)
  else (None, AllowOpen).

(** The same callback on the state: [mainWindow.loadURL(url)]. *)
Definition onWindowOpen (url : string) (s : State) : State :=
  match fst (windowOpenHandler url) with
  | Some loaded => set_mainContent (LoadedUrl loaded) s
  | None => s
  end.

(* ===================================================================== *)
(** ** Events of the process and its runs *)
(* ===================================================================== *)

Inductive Event : Type :=
| IpcStartProctor
| StartTimeoutFires
| IntervalFires (h : Handle) (displays : Z)
| Resumes (k : nat) (os : OS)
| IpcWarningTimerExpired (displays : Z)
| WarningSurfaceClosed (w : Handle)
| IpcEndProctor
| EndTimeoutFires
| IpcTerminateProctor
| WindowOpenRequested (url : string).

Definition timer_kind (s : State) (h : Handle) : option TimerKind :=
  option_map snd (find (fun t => (fst t =? h)%nat) (timers s)).

Fixpoint remove_nth {A : Type} (k : nat) (l : list A) : list A :=
  match l, k with
  | [], _ => []
  | _ :: rest, O => rest
  | x :: rest, S k' => x :: remove_nth k' rest
  end.

Definition resume (k : Suspended) (os : OS) (s : State) : State :=
  match k with
  | SuspMonitor displays => monitorResume displays os s
  | SuspResolve displays => resolveResume displays os s
  | SuspExpired displays => expiredResume displays os s
  end.

(** One event handled to completion or to its next [await].  [None]: the
    event cannot happen in [s] (no such timer, nothing parked there). *)
Definition step (s : State) (e : Event) : option State :=
  match e with
  | IpcStartProctor => Some (onStartProctor s)
  | StartTimeoutFires =>
      if (0 <? startTimeouts s)%nat then Some (startTimeout s) else None
  | IntervalFires h displays =>
      match timer_kind s h with
      | Some MonitorTimer => Some (monitorTick displays s)
      | Some ResolveTimer => Some (resolveTick displays s)
      | None => None
      end
  | Resumes k os =>
      match nth_error (suspended s) k with
      | Some c => Some (resume c os (set_suspended (remove_nth k (suspended s)) s))
      | None => None
      end
  | IpcWarningTimerExpired displays => Some (onWarningTimerExpired displays s)
  | WarningSurfaceClosed w =>
      if surface_open s w then Some (surfaceClosed w s) else None
  | IpcEndProctor => Some (onEndProctor s)
  | EndTimeoutFires =>
      if (0 <? endTimeouts s)%nat then Some (endTimeout s) else None
  | IpcTerminateProctor => Some (onTerminateProctor s)
  | WindowOpenRequested url => Some (onWindowOpen url s)
  end.

Fixpoint run (s : State) (es : list Event) : option State :=
  match es with
  | [] => Some s
  | e :: rest =>
      match step s e with
      | Some s' => run s' rest
      | None => None
      end
  end.

Definition reachable (s : State) : Prop := exists es, run init es = Some s.

(** The stimuli of the specification: the events above and a direct call
    of [showWarningWindow]. *)
Inductive Stimulus : Type :=
| Happens (e : Event)
| CallShowWarning (issue : string).

Definition stimulate (s : State) (x : Stimulus) : option State :=
  match x with
  | Happens e => step s e
  | CallShowWarning issue => Some (showWarningWindow issue s)
  end.

Fixpoint stimulate_all (s : State) (xs : list Stimulus) : option State :=
  match xs with
  | [] => Some s
  | x :: rest =>
      match stimulate s x with
      | Some s' => stimulate_all s' rest
      | None => None
      end
  end.

(** Facts about the state that every handler preserves. *)
Definition tracked_timers (s : State) : list (Handle * TimerKind) :=
  match resolveCheckInterval s with
  | Some h => [(h, ResolveTimer)]
  | None => []
  end ++
  match monitoringInterval s with
  | Some h => [(h, MonitorTimer)]
  | None => []
  end.

Definition is_expired (c : Suspended) : bool :=
  match c with SuspExpired _ => true | _ => false end.

(** Monitoring has not begun: no timer, no warning, no warning window, and
    only [warning-timer-expired] handlers can be parked. *)
Definition premonitoring (s : State) : Prop :=
  monitoringInterval s = None /\ resolveCheckInterval s = None /\
  isShowingWarning s = false /\ warningWindow s = None /\
  warningSurfaces s = [] /\
  forallb is_expired (suspended s) = true.

Record Inv (s : State) : Prop := {
  inv_timers : timers s = tracked_timers s;
  inv_tracked_open :
    forall w, warningWindow s = Some w -> surface_open s w = true;
  inv_fresh_monitor :
    forall h, monitoringInterval s = Some h -> h < nextHandle s;
  inv_fresh_resolve :
    forall h, resolveCheckInterval s = Some h -> h < nextHandle s;
  inv_distinct :
    forall a b, monitoringInterval s = Some a ->
                resolveCheckInterval s = Some b -> a <> b;
  inv_start_once : startTimeouts s <= 1;
  inv_not_started : proctorStarted s = false -> startTimeouts s = 0;
  inv_premonitoring :
    proctorStarted s = false \/ startTimeouts s <> 0 -> premonitoring s
}.

(* ===================================================================== *)
(** ** The specification's wording, for comparison with the code *)
(* ===================================================================== *)

Module Spec.

(** Violation kinds and their rules (specification, section 4.2). *)
Inductive ViolationKind : Type :=
| MultiDisplay
| ConferenceAppNotRunning
| CameraInactive
| RadioEnabled
| PeripheralAttached.

Definition holds (displayCount : Z) (running cameraActive enabled : bool)
    (count : Z) (k : ViolationKind) : bool :=
  match k with
  | MultiDisplay => (1 <? displayCount)%Z
  | ConferenceAppNotRunning => negb running
  | CameraInactive => running && negb cameraActive
  | RadioEnabled => enabled
  | PeripheralAttached => (0 <? count)%Z
  end.

Definition priority : list ViolationKind :=
  [MultiDisplay; ConferenceAppNotRunning; CameraInactive; RadioEnabled;
   PeripheralAttached].

(** The headline: the first kind of the fixed order whose rule holds. *)
Definition headline (displayCount : Z) (running cameraActive enabled : bool)
    (count : Z) : option ViolationKind :=
  find (holds displayCount running cameraActive enabled count) priority.

(** The text main.js shows for each kind. *)
Definition message (k : ViolationKind) : string :=
  match k with
  | MultiDisplay => "External display detected"
  | ConferenceAppNotRunning => "Zoom is not running"
  | CameraInactive => "Camera has been turned off"
  | RadioEnabled => "Bluetooth must be disabled"
  | PeripheralAttached => "Disconnect all USB devices"
  end.

(** An entry is internal when its lower-cased name contains a denylisted
    substring. *)
Definition is_internal (name : string) : bool :=
  existsb (fun pattern => includes pattern (toLowerCase name)) internalPatterns.

Fixpoint drop (n : nat) (s : string) : string :=
  match n, s with
  | S n', String _ rest => drop n' rest
  | _, _ => s
  end.

(** The dump is an indented block list: a line begins a device entry when
    it sits at the entry level, four spaces deep, shallower than the
    attributes below it; what stands at that level does not matter. *)
Definition is_entry_line (line : string) : bool :=
  prefix "    " line
  && match drop 4 line with
     | String c _ => negb (is_space c)
     | EmptyString => false
     end.

(** The names of the device entries of a dump. *)
Definition device_entries (stdout : string) : list string :=
  map trim (filter is_entry_line (split_lf stdout)).

(** The external count: the entries that are not internal.  A dump without
    entries, empty or not, has count 0. *)
Definition external_count (stdout : string) : Z :=
  Z.of_nat
    (List.length (filter (fun name => negb (is_internal name))
                    (device_entries stdout))).

(** The value of the matched line: what follows the first [state:] or
    [bluetooth power:] key of the lower-cased line. *)
Fixpoint matched_value (line : string) : option string :=
  if prefix "state:" line then Some (drop 6 line)
  else if prefix "bluetooth power:" line then Some (drop 16 line)
  else match line with
       | EmptyString => None
       | String _ rest => matched_value rest
       end.

(** Enabled when the matched line's value contains [on], whatever the case. *)
Definition radio_enabled (stdout : string) : bool :=
  match matched_value (toLowerCase stdout) with
  | Some value => includes "on" value
  | None => false
  end.

End Spec.

(* ===================================================================== *)
(** ** Sample environments *)
(* ===================================================================== *)

(** Every command fails. *)
Definition os_all_fail : OS := fun _ => Rejected.

(** Zoom runs with its camera on, Bluetooth is off, no USB device. *)
Definition os_compliant : OS :=
  fun cmd =>
    match cmd with
    | PgrepZoom => Resolved "4242"
    | IoregCamera => Resolved "CameraActive = Yes"
    | ProfilerBluetooth => Resolved "State: Off"
    | ProfilerUsb => Resolved "USB:"
    | _ => Resolved EmptyString
    end.

(** As [os_compliant], but no camera is streaming. *)
Definition os_camera_off : OS :=
  fun cmd =>
    match cmd with
    | IoregCamera => Resolved EmptyString
    | _ => os_compliant cmd
    end.

Definition lines (ls : list string) : string :=
  fold_right (fun l acc => l ++ String LF acc) EmptyString ls.

(** A device-tree dump with two top-level entries; the last one is followed
    by its attributes only. *)
Definition usb_two_devices : string :=
  lines [ "USB:"; EmptyString;
          "    Apple Internal Keyboard:"; EmptyString;
          "      Product ID: 0x027e";
          "      Vendor ID: 0x05ac (Apple Inc.)"; EmptyString;
          "    SanDisk USB Drive:"; EmptyString;
          "      Product ID: 0x5581";
          "      Serial Number: 4C530001071205117433" ].

(** The process query finds Zoom; every other command fails. *)
Definition os_only_zoom_found : OS :=
  fun cmd =>
    match cmd with
    | PgrepZoom => Resolved "4242"
    | _ => Rejected
    end.

(** One entry, whose name begins with a digit. *)
Definition usb_digit_entry : string := "    2.4G Wireless Mouse:".

(** One external entry, and the text [No USB] in one of its attributes. *)
Definition usb_no_usb_text : string :=
  lines [ "USB:"; EmptyString;
          "    SanDisk Cruzer:"; EmptyString;
          "      Product ID: 0x5581";
          "      Manufacturer: No USB Labs" ].

(* ===================================================================== *)
(** ** Auxiliary definitions of the proofs *)
(* ===================================================================== *)

Definition b2z (b : bool) : Z := if b then 1%Z else 0%Z.

(** The characters of the string are 7-bit: what the model of
    [toLowerCase] and [trim] is exact on. *)
Fixpoint seven_bit (s : string) : bool :=
  match s with
  | EmptyString => true
  | String c rest => (nat_of_ascii c <? 128)%nat && seven_bit rest
  end.

(** The rules of the specification on the readings of one tick, and the
    first kind, in the fixed order, whose rule holds. *)
Definition headline_of (r : Readings) : option Spec.ViolationKind :=
  Spec.headline (displayResult r) (zoomRunning (zoomResult r))
    (cameraInUse (zoomResult r)) (bluetoothEnabled (bluetoothResult r))
    (count (usbResult r)).

(** Some rule of the specification holds on the readings. *)
Definition violated (r : Readings) : bool :=
  match headline_of r with
  | Some _ => true
  | None => false
  end.

(** The readings [probeAll] delivers, by [probeAll_returns]. *)
Definition readings (displays : Z) (os : OS) : Readings :=
  match probeAll displays os with
  | inr r => r
  | inl _ =>
      {| displayResult := displays;
         zoomResult := {| zoomRunning := false; cameraInUse := false;
                          screenSharing := false |};
         bluetoothResult := {| bluetoothEnabled := false |};
         usbResult := usbResultOf 0 |}
  end.

(** Entries counted so far by the parsing loop, the pending one included. *)
Definition scan_total (st : UsbScan) : Z :=
  (externalDeviceCount st + b2z (isExternalDevice st))%Z.

Definition external_line (line : string) : bool :=
  negb (Spec.is_internal (trim line)).

Definition count_external (ls : list string) : Z :=
  Z.of_nat (List.length (filter external_line (filter is_device_line ls))).

(** Four spaces, then an ASCII letter. *)
Definition letter_entry_line (line : string) : bool :=
  prefix "    " line
  && match Spec.drop 4 line with
     | String c _ => is_letter c
     | EmptyString => false
     end.

(** The lines the parsing loop counts: those that begin with four spaces
    and a letter, and whose trimmed, lower-cased text contains no
    denylisted pattern. *)
Definition counted_line (line : string) : bool :=
  letter_entry_line line && negb (Spec.is_internal (trim line)).

Definition counted_lines (stdout : string) : Z :=
  Z.of_nat (List.length (filter counted_line (split_lf stdout))).

Definition LFs : string := String LF EmptyString.

(** The conferencing probe takes five time units, the others none. *)
Definition slow_zoom (p : Schedule.Probe) : nat :=
  match p with Schedule.ZoomCamera => 5 | _ => 0 end.

(** Monitoring is under way: the session was started and the start timeout
    has run. *)
Definition monitoring_begun (s : State) : Prop :=
  proctorStarted s = true /\ startTimeouts s = 0.

(** The three tests that make [showWarningWindow] return at once. *)
Definition show_guard (s : State) : bool :=
  isShowingWarning s || sessionTerminated s || warningWindowLive s.

Definition state_after (es : list Event) : State :=
  match run init es with
  | Some s => s
  | None => init
  end.

(** Start, the start timeout, a monitor tick, and its probes all failing:
    a warning is up. *)
Definition run_to_warning : list Event :=
  [IpcStartProctor; StartTimeoutFires; IntervalFires 0 1; Resumes 0 os_all_fail].

(** The same, then the warning page reports that its timer expired. *)
Definition run_to_expiry : list Event :=
  (run_to_warning ++ [IpcWarningTimerExpired 1])%list.

(** The timer-expired message arrives before any start request, and the
    probes fail. *)
Definition run_terminated_before_start : list Event :=
  [IpcWarningTimerExpired 1; Resumes 0 os_all_fail].

Definition after_stimuli (s : State) (xs : list Stimulus) : State :=
  match stimulate_all s xs with
  | Some s' => s'
  | None => s
  end.

(** The warning timer expired with the violation still there. *)
Definition terminated_from_warning : State :=
  state_after (run_to_expiry ++ [Resumes 0 os_all_fail]).

(** A warning is up and its page reports twice that the timer expired; the
    first handler finds the violation still there, the second finds the
    environment compliant. *)
Definition run_two_expiries : list Event :=
  (run_to_warning
   ++ [IpcWarningTimerExpired 1; IpcWarningTimerExpired 1;
       Resumes 0 os_all_fail; Resumes 0 os_compliant])%list.

(** A warning is up, the resolve tick finds the environment compliant and
    closes the warning, and the next monitor tick finds a violation again
    before the [closed] event of the first window has come. *)
Definition run_to_second_warning : list Event :=
  (run_to_warning
   ++ [IntervalFires 2 1; Resumes 0 os_compliant;
       IntervalFires 0 1; Resumes 0 os_all_fail])%list.

(** A start request, a direct warning request, a timer-expired message
    and its compliant re-check. *)
Definition stimuli_after_termination : list Stimulus :=
  [Happens IpcStartProctor; CallShowWarning "Zoom is not running";
   Happens (IpcWarningTimerExpired 1); Happens (Resumes 0 os_compliant)].

(* ===================================================================== *)
(** ** More of the probes *)
(* ===================================================================== *)

(** Only white space, or nothing at all. *)
Fixpoint all_space (s : string) : bool :=
  match s with
  | EmptyString => true
  | String c rest => is_space c && all_space rest
  end.

(** The command succeeded and printed something besides white space. *)
Definition printed (os : OS) (cmd : Command) : bool :=
  match os cmd with
  | Resolved stdout => negb (all_space stdout)
  | Rejected => false
  end.

(** The command succeeded. *)
Definition succeeded (os : OS) (cmd : Command) : bool :=
  match os cmd with
  | Resolved _ => true
  | Rejected => false
  end.

(** The denylist without the four patterns that contain another pattern of
    the list: [host controller], [root hub], [usb bus] and
    [ambient light sensor]. *)
Definition essentialPatterns : list string :=
  [ "hub"; "internal"; "built-in"; "bluetooth"; "apple";
    "usb 3"; "usb 2"; "usb3"; "usb2";
    "bus"; "touch bar"; "facetime"; "headset";
    "card reader"; "trackpad"; "keyboard"; "ibridge"; "sensor"; "controller" ].

(** Two environments that differ at most in the two screen-sharing queries. *)
Definition same_but_sharing (os1 os2 : OS) : Prop :=
  os1 PgrepZoom = os2 PgrepZoom /\ os1 IoregCamera = os2 IoregCamera
  /\ os1 ProfilerBluetooth = os2 ProfilerBluetooth
  /\ os1 ProfilerUsb = os2 ProfilerUsb.

(* ===================================================================== *)
(** ** More of the state machine *)
(* ===================================================================== *)

(** How the warning flag, the variable [warningWindow] and the resolve
    timer go together. *)
Record Coherent (s : State) : Prop := {
  coh_showing_resolve :
    isShowingWarning s = true -> resolveCheckInterval s <> None;
  coh_resolve_showing :
    resolveCheckInterval s <> None -> isShowingWarning s = true;
  coh_tracked_showing :
    warningWindow s <> None -> isShowingWarning s = true;
  coh_terminated : sessionTerminated s = true -> isShowingWarning s = false;
  coh_closing_fresh : forall w, In w (closing s) -> w < nextHandle s;
  coh_tracked_fresh : forall w, warningWindow s = Some w -> w < nextHandle s;
  coh_tracked_not_closing :
    forall w, warningWindow s = Some w -> ~ In w (closing s)
}.

(** The page last loaded into the main window is the terminated page, or a
    URL that the window-open handler loaded: one with [chess.com] or
    [buddyboardgames.com] in it. *)
Definition terminated_or_loaded (content : Page) : Prop :=
  content = TerminatedPage
  \/ exists url,
       content = LoadedUrl url
       /\ includes "chess.com" url || includes "buddyboardgames.com" url
          = true.

(** A session that was started, monitored and terminated, with no timer
    left running. *)
Definition quiescent (s : State) : Prop :=
  sessionTerminated s = true /\ proctorStarted s = true
  /\ startTimeouts s = 0 /\ timers s = [] /\ isShowingWarning s = false
  /\ warningWindow s = None /\ terminated_or_loaded (mainContent s).

(** The state with the [k]-th parked callback taken off the list. *)
Definition unpark (k : nat) (s : State) : State :=
  set_suspended (remove_nth k (suspended s)) s.

(* ===================================================================== *)
(** ** The quit guard, main.js lines 74, 200-204, 332-336, 364-367,
       644-647, 658-662, 679-683 *)
(* ===================================================================== *)

Module QuitGuard.

Inductive Event : Type :=
| TerminateProctor     (* ipc [terminate-proctor] *)
| EndProctorTimeout    (* the 200 ms timeout of [end-proctor] *)
| RestartNow           (* the update dialog answered with button 1 *)
| LockRefused          (* [requestSingleInstanceLock()] returned false *)
| MainWindowClose      (* [close] of the main window *)
| BeforeQuit.          (* [before-quit] of the app *)

(** The new value of [allowQuit], and whether [e.preventDefault()] ran. *)
Definition handle (allowQuit : bool) (e : Event) : bool * bool :=
  match e with
  | TerminateProctor | EndProctorTimeout | RestartNow | LockRefused =>
      (true, false)
  | MainWindowClose | BeforeQuit => (allowQuit, negb allowQuit)
  end.

(** [let allowQuit = true;] *)
Definition initial : bool := true.

(** The value of [allowQuit] after the events, and how many of them were
    prevented. *)
Fixpoint run (allowQuit : bool) (es : list Event) : bool * nat :=
  match es with
  | [] => (allowQuit, 0)
  | e :: rest =>
      let (a, p) := handle allowQuit e in
      let (a', n) := run a rest in
      (a', if p then S n else n)
  end.

End QuitGuard.

(* ===================================================================== *)
(** ** The update status, main.js lines 76 and 611-655 *)
(* ===================================================================== *)

Module Updater.

Inductive Status : Type := Checking | Downloading | UpToDate | Ready | Failed.

(** [updateStatus]; a field that is [null] or absent is [None]. *)
Record UpdateStatus : Type := {
  status : Status;
  version : option string;
  progress : option Z;
  error : option string
}.

(** The events of [autoUpdater], with [info.version] and [err.message] as
    strings; [DownloadProgress] carries [Math.round(progressObj.percent)].
    The dialog of [update-downloaded] is left out. *)
Inductive Event : Type :=
| CheckingForUpdate
| UpdateAvailable (version : string)
| UpdateNotAvailable
| DownloadProgress (rounded : Z)
| UpdateDownloaded (version : string)
| UpdaterError (message : string).

Definition initial : UpdateStatus :=
  {| status := Checking; version := None; progress := None; error := None |}.

Definition handle (u : UpdateStatus) (e : Event) : UpdateStatus :=
  match e with
  | CheckingForUpdate =>
      {| status := Checking; version := None; progress := None; error := None |}
  | UpdateAvailable v =>
      {| status := Downloading; version := Some v; progress := None;
         error := None |}
  | UpdateNotAvailable =>
      {| status := UpToDate; version := None; progress := None; error := None |}
  | DownloadProgress p =>
      {| status := Downloading; version := version u; progress := Some p;
         error := None |}
  | UpdateDownloaded v =>
      {| status := Ready; version := Some v; progress := None; error := None |}
  | UpdaterError m =>
      {| status := Failed; version := None; progress := None; error := Some m |}
  end.

Definition run (u : UpdateStatus) (es : list Event) : UpdateStatus :=
  fold_left handle es u.

End Updater.

(* ===================================================================== *)
(** ** The End Proctor button, preload.js lines 40-96 *)
(* ===================================================================== *)

Module EndButton.

(** The button and what its closures hold: [dataset.counting], the text,
    two style properties, [secondsLeft] once a countdown has begun, whether
    [countdownInterval] is live, and how often [end-proctor] was sent. *)
Record Button : Type := {
  counting : bool;
  textContent : string;
  background : string;
  cursor : string;
  secondsLeft : option Z;
  countdownInterval : bool;
  endProctorSent : nat
}.

Definition initial : Button :=
  {| counting := false; textContent := "End Proctor";
     background := "#dc3545"; cursor := "pointer"; secondsLeft := None;
     countdownInterval := false; endProctorSent := 0 |}.

(** [`Ending in ${secondsLeft}...`] *)
Definition ending_in (n : Z) : string :=
  "Ending in " ++ NilZero.string_of_int (Z.to_int n) ++ "...".

(** The click listener; [confirmed] is the answer of [confirm(...)]. *)
Definition click (confirmed : bool) (b : Button) : Button :=
  if counting b then b
  else if confirmed then
    {| counting := true; textContent := ending_in 15;
       background := "#6c757d"; cursor := "default"; secondsLeft := Some 15%Z;
       countdownInterval := true; endProctorSent := endProctorSent b |}
  else b.

(** The callback of [countdownInterval]. *)
Definition tick (b : Button) : Button :=
  match secondsLeft b with
  | Some n =>
      let n := (n - 1)%Z in
      if (0 <? n)%Z then
        {| counting := counting b; textContent := ending_in n;
           background := background b; cursor := cursor b;
           secondsLeft := Some n; countdownInterval := countdownInterval b;
           endProctorSent := endProctorSent b |}
      else
        {| counting := counting b; textContent := "Ending...";
           background := background b; cursor := cursor b;
           secondsLeft := Some n; countdownInterval := false;
           endProctorSent := S (endProctorSent b) |}
  | None => b
  end.

Definition recolor (colour : string) (b : Button) : Button :=
  if counting b then b
  else {| counting := counting b; textContent := textContent b;
          background := colour; cursor := cursor b;
          secondsLeft := secondsLeft b;
          countdownInterval := countdownInterval b;
          endProctorSent := endProctorSent b |}.

Inductive Event : Type :=
| Click (confirmed : bool)
| Tick
| MouseEnter
| MouseLeave.

(** [None]: the interval is not live, so it cannot fire. *)
Definition step (b : Button) (e : Event) : option Button :=
  match e with
  | Click confirmed => Some (click confirmed b)
  | Tick => if countdownInterval b then Some (tick b) else None
  | MouseEnter => Some (recolor "#c82333" b)
  | MouseLeave => Some (recolor "#dc3545" b)
  end.

Fixpoint run (b : Button) (es : list Event) : option Button :=
  match es with
  | [] => Some b
  | e :: rest =>
      match step b e with
      | Some b' => run b' rest
      | None => None
      end
  end.

End EndButton.

(** What holds of the button after any sequence of its events: idle with
    nothing sent, or counting down from at most 15 with the grey
    background, or done with [end-proctor] sent once. *)
Definition button_ok (b : EndButton.Button) : Prop :=
  (EndButton.counting b = false ->
   EndButton.endProctorSent b = 0 /\ EndButton.countdownInterval b = false
   /\ EndButton.secondsLeft b = None
   /\ EndButton.textContent b = "End Proctor")
  /\ (EndButton.counting b = true ->
      EndButton.background b = "#6c757d" /\ EndButton.cursor b = "default"
      /\ exists n,
           EndButton.secondsLeft b = Some n
           /\ ((EndButton.countdownInterval b = true
                /\ EndButton.endProctorSent b = 0
                /\ (1 <= n <= 15)%Z
                /\ EndButton.textContent b = EndButton.ending_in n)
               \/ (EndButton.countdownInterval b = false
                   /\ EndButton.endProctorSent b = 1
                   /\ n = 0%Z
                   /\ EndButton.textContent b = "Ending..."))).

(** The button [k] seconds into its countdown, [k] below 15. *)
Definition counting_down (sent : nat) (k : nat) : EndButton.Button :=
  {| EndButton.counting := true;
     EndButton.textContent := EndButton.ending_in (15 - Z.of_nat k);
     EndButton.background := "#6c757d";
     EndButton.cursor := "default";
     EndButton.secondsLeft := Some (15 - Z.of_nat k)%Z;
     EndButton.countdownInterval := true;
     EndButton.endProctorSent := sent |}.

(* ===================================================================== *)
(** ** More samples *)
(* ===================================================================== *)

(** As [os_compliant], with Zoom's screen-sharing helper running. *)
Definition os_sharing : OS :=
  fun cmd =>
    match cmd with
    | PgrepShare => Resolved "5150"
    | _ => os_compliant cmd
    end.

(* ===================================================================== *)
(** ** Tactics *)
(* ===================================================================== *)

Ltac break_state s :=
  let ps := fresh "started" in
  let st := fresh "terminated" in
  let sw := fresh "showing" in
  let mon := fresh "mon" in
  let res := fresh "res" in
  let ww := fresh "ww" in
  let tm := fresh "tm" in
  let surf := fresh "surf" in
  let clo := fresh "clo" in
  destruct s as [ps st sw mon res ww tm surf clo ? ? ? ? ? ? ? ?].

Ltac break_inv H :=
  let Ht := fresh "Htimers" in
  let Ho := fresh "Hopen" in
  destruct H as [Ht Ho ? ? ? ? ? ?];
  unfold tracked_timers, premonitoring, surface_open in *;
  cbn [timers warningSurfaces monitoringInterval resolveCheckInterval
       warningWindow proctorStarted isShowingWarning startTimeouts
       nextHandle suspended sessionTerminated closing] in *;
  subst.

Ltac use_premonitoring :=
  match goal with
  | H : _ -> _ /\ _ /\ _ /\ _ /\ _ /\ _ |- _ =>
      destruct H as (? & ? & ? & ? & ? & ?); [assumption |]
  end.

Ltac eqb_cases :=
  repeat match goal with
    | |- context [Nat.eqb ?a ?a] => rewrite (Nat.eqb_refl a)
    | |- context [Nat.eqb ?a ?b] =>
        destruct (Nat.eqb_spec a b); [subst |]
    end.

Ltac inv_done :=
  constructor; cbn; unfold tracked_timers, premonitoring, surface_open;
  cbn; intros;
  repeat match goal with
    | H : Some _ = Some _ |- _ => injection H as H; subst
    | H : Some _ = None |- _ => discriminate H
    | H : None = Some _ |- _ => discriminate H
    | H : forall h, Some ?a = Some h -> _ |- _ => specialize (H a eq_refl)
    | H : forall a b, Some ?x = Some a -> Some ?y = Some b -> _ |- _ =>
        specialize (H x y eq_refl eq_refl)
    end;
  try solve [ reflexivity | lia | congruence | tauto | eauto
            | intuition (congruence || lia || eauto) ].

Ltac unfold_handlers :=
  unfold stimulate, step, onStartProctor, startTimeout, startActiveMonitoring,
    monitorTick, resolveTick, resume, monitorResume, resolveResume,
    expiredResume, onWarningTimerExpired, onEndProctor, endTimeout,
    onTerminateProctor, onWindowOpen, showWarningWindow, closeWarningWindow,
    terminateChessSession, suspend, stopMonitoring, stopResolveCheck,
    closeWarningIfOpen, requestClose, warningWindowLive, surface_open,
    surfaceClosed, openWarningSurface, setInterval, clearInterval,
    timer_kind in *.

Ltac split_cases :=
  repeat match goal with
    | |- context [match ?x with _ => _ end] => destruct x eqn:?; cbn
    end.

Ltac split_cases_in H :=
  repeat match type of H with
    | context [match ?x with _ => _ end] => destruct x eqn:?; cbn in H
    end.

Ltac use_coherent :=
  repeat match goal with
    | H : _ :: _ <> [] -> _ |- _ =>
        let X := fresh in
        assert (X := H ltac:(discriminate)); clear H
    | H : Some _ <> None -> _ |- _ =>
        let X := fresh in
        assert (X := H ltac:(discriminate)); clear H
    | H : true = true -> _ |- _ => specialize (H eq_refl)
    end.

Ltac eqb_refl_hyps :=
  repeat match goal with
    | H : context [Nat.eqb ?a ?a] |- _ =>
        rewrite (Nat.eqb_refl a) in H; cbn in H
    end.

Ltac use_membership :=
  repeat match goal with
    | H : In _ (filter _ _) |- _ => apply filter_In in H as [H _]
    | H : In _ (_ :: _) |- _ => destruct H as [<- | H]
    | H : _ = _ \/ In _ _ |- _ => destruct H as [<- | H]
    | H : forall w, In w ?l -> _, H' : In ?x ?l |- _ =>
        pose proof (H x H'); clear H'
    end.

Ltac coherent_done :=
  constructor; cbn; intros; use_coherent; subst;
  repeat match goal with
    | H : Some _ = Some _ |- _ => injection H as H; subst
    | H : Some _ = None |- _ => discriminate H
    | H : None = Some _ |- _ => discriminate H
    end;
  try solve [ reflexivity | congruence | discriminate | tauto
            | exfalso; eqb_refl_hyps; cbn in *; congruence
            | use_membership; lia
            | eauto ].

(* ===================================================================== *)
(** ** Strings *)
(* ===================================================================== *)

Section StringFacts.

Lemma prefix_app (p s : string) :
  prefix p s = true <-> exists rest, s = p ++ rest.
Proof.
  revert s. induction p as [|c p IH]; intros [|d s]; simpl.
  - split; [intros _; exists EmptyString; reflexivity | reflexivity].
  - split; [intros _; exists (String d s); reflexivity | reflexivity].
  - split; [discriminate | intros [rest H]; discriminate].
  - destruct (ascii_dec c d) as [->|Hcd].
    + rewrite IH. split; intros [rest H]; exists rest.
      * now rewrite H.
      * now inversion H.
    + split; [discriminate |].
      intros [rest H]. congruence.
Qed.

(** [includes] finds the needle exactly when the hay stack splits around it. *)
Lemma includes_app (needle hay : string) :
  includes needle hay = true <-> exists a b, hay = a ++ needle ++ b.
Proof.
  induction hay as [|c hay IH]; cbn [includes].
  - rewrite orb_false_r, prefix_app. split.
    + intros [rest H]. exists EmptyString, rest. exact H.
    + intros [a [b H]]. destruct a; simpl in H; [now exists b | discriminate].
  - rewrite orb_true_iff, prefix_app, IH. split.
    + intros [[rest H] | [a [b H]]].
      * exists EmptyString, rest. exact H.
      * exists (String c a), b. simpl. now rewrite H.
    + intros [a [b H]]. destruct a as [|d a]; simpl in H.
      * left. now exists b.
      * right. inversion H. now exists a, b.
Qed.

Lemma split_lf_nonempty (s : string) : split_lf s <> [].
Proof.
  destruct s as [|c s]; simpl; [discriminate |].
  destruct (Ascii.eqb c LF); [discriminate |].
  destruct (split_lf s); discriminate.
Qed.

(** Splitting distributes over a line feed. *)
Lemma split_lf_app (a b : string) :
  split_lf (a ++ String LF b) = (split_lf a ++ split_lf b)%list.
Proof.
  induction a as [|c a IH]; simpl.
  - reflexivity.
  - rewrite IH. destruct (Ascii.eqb c LF); [reflexivity |].
    pose proof (split_lf_nonempty a) as Hne.
    destruct (split_lf a); [contradiction | reflexivity].
Qed.

Lemma split_lf_single (l : string) :
  includes (String LF EmptyString) l = false -> split_lf l = [l].
Proof.
  induction l as [|c l IH]; simpl; [reflexivity |].
  intros H. apply orb_false_elim in H as [Hc Hl].
  destruct (Ascii.eqb_spec c LF) as [->|Hne].
  - simpl in Hc. destruct (ascii_dec LF LF); [| contradiction].
    destruct l; discriminate.
  - rewrite (IH Hl). reflexivity.
Qed.

End StringFacts.

Lemma append_assoc (a b c : string) : (a ++ b) ++ c = a ++ b ++ c.
Proof. induction a as [|x a IH]; simpl; [reflexivity | now rewrite IH]. Qed.

Lemma includes_trans (a b s : string) :
  includes a b = true -> includes b s = true -> includes a s = true.
Proof.
  rewrite !includes_app. intros [x [y ->]] [u [v ->]].
  exists (u ++ x), (y ++ v). now rewrite !append_assoc.
Qed.

Lemma trimStart_all_space (s : string) :
  all_space s = true -> trimStart s = EmptyString.
Proof.
  induction s as [|c s IH]; simpl; [reflexivity |].
  intros H. apply andb_prop in H as [Hc Hs]. rewrite Hc. auto.
Qed.

Lemma trimStart_some_char (s : string) :
  all_space s = false ->
  exists c rest, trimStart s = String c rest /\ is_space c = false.
Proof.
  induction s as [|c s IH]; simpl; [discriminate |].
  destruct (is_space c) eqn:Hc; simpl.
  - exact IH.
  - intros _. now exists c, s.
Qed.

Lemma trimEnd_keeps_head (c : ascii) (rest : string) :
  is_space c = false -> exists kept, trimEnd (String c rest) = String c kept.
Proof.
  intros Hc. simpl. destruct (trimEnd rest) as [|d kept].
  - rewrite Hc. now exists EmptyString.
  - now exists (String d kept).
Qed.

(** [s.trim().length > 0] holds exactly when [s] has a character that is
    not white space. *)
Lemma nonblank_all_space (s : string) : nonblank s = negb (all_space s).
Proof.
  unfold nonblank, trim. destruct (all_space s) eqn:Hs.
  - now rewrite (trimStart_all_space s Hs).
  - destruct (trimStart_some_char s Hs) as [c [rest [-> Hc]]].
    destruct (trimEnd_keeps_head c rest Hc) as [kept ->]. reflexivity.
Qed.

(* ===================================================================== *)
(** ** The probes *)
(* ===================================================================== *)

Section ProbeFacts.

Variable os : OS.

Lemma checkZoomCamera_returns :
  exists z, checkZoomCamera os = inr z.
Proof.
  unfold checkZoomCamera, execAsync. simpl.
  destruct (os PgrepZoom) as [ps|]; simpl; [| eauto].
  destruct (nonblank ps); simpl; [| eauto].
  destruct (os IoregCamera) as [io|]; simpl;
    destruct (os PgrepShare) as [sh|]; simpl; eauto;
    destruct (nonblank sh); simpl; eauto;
    destruct (os LsofZoom); simpl; eauto.
Qed.

Lemma checkBluetooth_returns :
  checkBluetooth os =
  inr {| bluetoothEnabled :=
           match os ProfilerBluetooth with
           | Resolved stdout => includes ": on" (toLowerCase stdout)
           | Rejected => false
           end |}.
Proof.
  unfold checkBluetooth, execAsync. simpl.
  destruct (os ProfilerBluetooth); reflexivity.
Qed.

Lemma getUsbDeviceCount_returns :
  getUsbDeviceCount os =
  inr match os ProfilerUsb with
      | Resolved stdout => usb_count_of_output stdout
      | Rejected => 0%Z
      end.
Proof.
  unfold getUsbDeviceCount, execAsync. simpl.
  destruct (os ProfilerUsb); reflexivity.
Qed.

Lemma probeAll_returns (displays : Z) :
  exists r, probeAll displays os = inr r /\ displayResult r = displays.
Proof.
  unfold probeAll, checkUsbDevices.
  destruct checkZoomCamera_returns as [z Hz].
  rewrite Hz, checkBluetooth_returns, getUsbDeviceCount_returns. simpl.
  eexists. split; reflexivity.
Qed.

End ProbeFacts.

Section UsbScanFacts.

(** The loop commits an entry one step late; the running total is the
    number of external entries seen so far all the same. *)
Lemma scan_fold (ls : list string) (st : UsbScan) :
  scan_total (fold_left usb_scan_line ls st)
  = (scan_total st + count_external ls)%Z.
Proof.
  revert st. induction ls as [|l ls IH]; intros st.
  - unfold count_external. simpl. lia.
  - cbn [fold_left]. rewrite IH. unfold count_external, usb_scan_line.
    cbn [filter]. destruct (is_device_line l); [| reflexivity].
    change (negb (existsb _ internalPatterns)) with (external_line l).
    unfold scan_total. cbn [externalDeviceCount isExternalDevice filter].
    destruct (isExternalDevice st); destruct (external_line l);
      cbn [b2z List.length]; lia.
Qed.

Lemma usb_scan_counts (stdout : string) :
  usb_scan stdout = count_external (split_lf stdout).
Proof.
  unfold usb_scan. cbv zeta.
  pose proof (scan_fold (split_lf stdout)
                {| externalDeviceCount := 0; currentDevice := EmptyString;
                   isExternalDevice := false |}) as H.
  unfold scan_total in H. simpl in H.
  destruct (isExternalDevice _); simpl in H; lia.
Qed.

Lemma count_external_app (xs ys : list string) :
  count_external (xs ++ ys) = (count_external xs + count_external ys)%Z.
Proof.
  unfold count_external.
  rewrite !filter_app, length_app. lia.
Qed.

End UsbScanFacts.

Lemma usb_count_nonneg (stdout : string) : (0 <= usb_count_of_output stdout)%Z.
Proof.
  unfold usb_count_of_output.
  destruct (usb_no_data stdout); [lia |].
  rewrite usb_scan_counts. unfold count_external. lia.
Qed.

(** C5, as stated, fails: when only the camera and sharing queries fail,
    [checkZoomCamera] still reports Zoom as running, so the three flags are
    not all [false] on failure. *)
Lemma zoom_running_despite_failures_counterexample :
  os_only_zoom_found IoregCamera = Rejected
  /\ os_only_zoom_found PgrepShare = Rejected
  /\ checkZoomCamera os_only_zoom_found
     = inr {| zoomRunning := true; cameraInUse := false;
              screenSharing := false |}.
Proof. repeat split. Qed.

(** C5, amended.  Every probe returns a value whatever the commands do:
    none of them throws.  [checkZoomCamera] returns three booleans, all
    [false] when the process query fails; when that query answers,
    [zoomRunning] says whether it printed anything, whatever the other
    queries do; a failed camera query makes [cameraInUse] false, and a
    failed helper-process query, or a failed open-handles query after a
    blank answer of the former, makes [screenSharing] false.
    [checkBluetooth] returns [bluetoothEnabled], which is [false] on
    failure; [getUsbDeviceCount] returns an integer that is never negative
    and is 0 on failure.  Hence the probing lines of a tick always deliver
    their four readings. *)
Theorem probes_never_throw (os : OS) :
  (exists z, checkZoomCamera os = inr z
     /\ (os PgrepZoom = Rejected ->
         z = {| zoomRunning := false; cameraInUse := false;
                screenSharing := false |})
     /\ (forall psOutput,
           os PgrepZoom = Resolved psOutput ->
           zoomRunning z = nonblank psOutput)
     /\ (os IoregCamera = Rejected -> cameraInUse z = false)
     /\ (os PgrepShare = Rejected -> screenSharing z = false)
     /\ (forall shareOutput,
           os PgrepShare = Resolved shareOutput ->
           nonblank shareOutput = false -> os LsofZoom = Rejected ->
           screenSharing z = false))
  /\ (exists b, checkBluetooth os = inr b
        /\ (os ProfilerBluetooth = Rejected -> bluetoothEnabled b = false))
  /\ (exists n, getUsbDeviceCount os = inr n /\ (0 <= n)%Z
        /\ (os ProfilerUsb = Rejected -> n = 0%Z))
  /\ (forall displays, exists r, probeAll displays os = inr r).
Proof.
  split; [| split; [| split]].
  - unfold checkZoomCamera, execAsync. simpl.
    destruct (os PgrepZoom) as [ps|]; simpl.
    2:{ eexists. split; [reflexivity |]. repeat split; try reflexivity.
        discriminate. }
    destruct (nonblank ps) eqn:Hps; simpl.
    2:{ eexists. split; [reflexivity |]. repeat split; try reflexivity.
        intros ? [= <-]. now rewrite Hps. }
    destruct (os IoregCamera) as [io|]; simpl;
      destruct (os PgrepShare) as [sh|]; simpl;
      try destruct (nonblank sh) eqn:Hsh; simpl;
      try destruct (os LsofZoom); simpl;
      (eexists; split; [reflexivity |]; repeat split;
       first [ reflexivity | discriminate
             | intros ? [= <-]; congruence
             | intros ? [= <-]; symmetry; exact Hps ]).
  - rewrite checkBluetooth_returns. eexists. split; [reflexivity |].
    intros ->. reflexivity.
  - rewrite getUsbDeviceCount_returns. eexists. split; [reflexivity |]. split.
    + destruct (os ProfilerUsb); [apply usb_count_nonneg | lia].
    + intros ->. reflexivity.
  - intros displays. destruct (probeAll_returns os displays) as [r [Hr _]].
    now exists r.
Qed.

(** With every command failing, the three probes return their defaults. *)
Lemma probes_never_throw_witness :
  checkZoomCamera os_all_fail
  = inr {| zoomRunning := false; cameraInUse := false; screenSharing := false |}
  /\ checkBluetooth os_all_fail = inr {| bluetoothEnabled := false |}
  /\ getUsbDeviceCount os_all_fail = inr 0%Z.
Proof.
  destruct (probes_never_throw os_all_fail)
    as [[z [Hz [Hz0 _]]] [[b [Hb Hb0]] [[n [Hn [_ Hn0]]] _]]].
  rewrite Hz, Hb, Hn.
  rewrite (Hz0 eq_refl), (Hn0 eq_refl).
  destruct b as [e]. simpl in Hb0. rewrite (Hb0 eq_refl).
  repeat split; reflexivity.
Defined.

Section EntryLines.

Lemma letter_not_space (c : ascii) : is_letter c = true -> is_space c = false.
Proof. destruct c as [[] [] [] [] [] [] [] []]; try discriminate; reflexivity. Qed.

(** The no-data test of the parser: the output is all white space, or has
    the text [No USB] in it. *)
Lemma usb_no_data_closed (stdout : string) :
  usb_no_data stdout = all_space stdout || includes "No USB" stdout.
Proof.
  unfold usb_no_data.
  assert (Hblank : is_empty (trim stdout) = all_space stdout).
  { pose proof (nonblank_all_space stdout) as H. unfold nonblank in H.
    destruct (trim stdout); cbn in *; destruct (all_space stdout);
      try reflexivity; discriminate. }
  rewrite Hblank. destruct stdout; reflexivity.
Qed.

Lemma all_space_lines (s : string) :
  all_space s = true -> forallb all_space (split_lf s) = true.
Proof.
  induction s as [|c s IH]; [reflexivity |].
  cbn [all_space split_lf]. intros H. apply andb_prop in H as [Hc Hs].
  specialize (IH Hs). destruct (Ascii.eqb c LF); [exact IH |].
  destruct (split_lf s) as [|line rest]; cbn in *.
  - now rewrite Hc.
  - apply andb_prop in IH as [-> ->]. now rewrite Hc.
Qed.

Lemma entry_not_blank (line : string) :
  Spec.is_entry_line line = true -> all_space line = false.
Proof.
  unfold Spec.is_entry_line. intros H. apply andb_prop in H as [_ H].
  destruct line as [|c1 [|c2 [|c3 [|c4 [|c rest]]]]]; try discriminate H.
  cbn in H. cbn [all_space]. apply negb_true_iff in H. rewrite H.
  now rewrite !andb_false_r.
Qed.

Lemma blank_no_entries (s : string) :
  all_space s = true -> filter Spec.is_entry_line (split_lf s) = [].
Proof.
  intros H. apply all_space_lines in H.
  induction (split_lf s) as [|l ls IH]; [reflexivity |].
  cbn in *. apply andb_prop in H as [Hl Hls].
  destruct (Spec.is_entry_line l) eqn:He; [| auto].
  apply entry_not_blank in He. congruence.
Qed.
Lemma four_spaces (line : string) :
  prefix "    " line = true -> exists rest, line = "    " ++ rest.
Proof.
  intros H. apply prefix_correct in H. cbn in H.
  destruct line as [|c1 [|c2 [|c3 [|c4 rest]]]]; try discriminate H.
  injection H as <- <- <- <-. now exists rest.
Qed.

Lemma letter_entry_shape (line : string) :
  letter_entry_line line = true <->
  exists c rest, line = "    " ++ String c rest /\ is_letter c = true.
Proof.
  unfold letter_entry_line. split.
  - intros H. apply andb_prop in H as [Hp H].
    destruct (four_spaces line Hp) as [rest ->]. cbn in H.
    destruct rest as [|c rest]; [discriminate |]. now exists c, rest.
  - intros [c [rest [-> Hc]]]. cbn. exact Hc.
Qed.

(** The first test of the loop, [/^    [A-Za-z]/]. *)
Lemma four_spaces_letter (line : string) :
  match line with
  | String " " (String " " (String " " (String " " (String c _)))) => is_letter c
  | _ => false
  end = letter_entry_line line.
Proof.
  unfold letter_entry_line.
  destruct line as [|c1 line]; [reflexivity |].
  destruct c1 as [[] [] [] [] [] [] [] []]; try reflexivity.
  destruct line as [|c2 line]; [reflexivity |].
  destruct c2 as [[] [] [] [] [] [] [] []]; try reflexivity.
  destruct line as [|c3 line]; [reflexivity |].
  destruct c3 as [[] [] [] [] [] [] [] []]; try reflexivity.
  destruct line as [|c4 line]; [reflexivity |].
  destruct c4 as [[] [] [] [] [] [] [] []]; try reflexivity.
  destruct line as [|c rest]; reflexivity.
Qed.

Lemma is_device_line_letter (line : string) :
  is_device_line line = letter_entry_line line.
Proof.
  unfold is_device_line. rewrite four_spaces_letter.
  destruct (letter_entry_line line) eqn:Hl; [| reflexivity].
  apply letter_entry_shape in Hl as [c [rest [-> Hc]]]. cbn.
  destruct c as [[] [] [] [] [] [] [] []]; try discriminate Hc; reflexivity.
Qed.

Lemma letter_entry_is_entry (line : string) :
  letter_entry_line line = true -> Spec.is_entry_line line = true.
Proof.
  unfold letter_entry_line, Spec.is_entry_line. intros H.
  apply andb_prop in H as [-> H]. cbn [andb].
  destruct (Spec.drop 4 line) as [|c rest]; [discriminate |].
  now rewrite (letter_not_space c H).
Qed.

Lemma count_external_counted (ls : list string) :
  count_external ls = Z.of_nat (List.length (filter counted_line ls)).
Proof.
  unfold count_external. f_equal. f_equal.
  induction ls as [|l ls IH]; [reflexivity |].
  cbn [filter]. unfold counted_line at 1. rewrite <- is_device_line_letter.
  destruct (is_device_line l); cbn [filter andb]; [| exact IH].
  unfold external_line at 1.
  destruct (negb (Spec.is_internal (trim l))); [now rewrite IH | exact IH].
Qed.

End EntryLines.

(** C6, as stated, fails twice.  An entry whose name begins with a digit is
    not counted, though it stands at the entry level and no denylisted
    substring is in its name; and an output with the text [No USB] in it
    yields 0 whatever entries it lists. *)
Lemma usb_entries_left_out_counterexample :
  (Spec.device_entries usb_digit_entry = ["2.4G Wireless Mouse:"]
   /\ Spec.is_internal "2.4G Wireless Mouse:" = false
   /\ Spec.external_count usb_digit_entry = 1%Z
   /\ getUsbDeviceCount (fun _ => Resolved usb_digit_entry) = inr 0%Z)
  /\ (Spec.device_entries usb_no_usb_text = ["SanDisk Cruzer:"]
      /\ Spec.is_internal "SanDisk Cruzer:" = false
      /\ Spec.external_count usb_no_usb_text = 1%Z
      /\ getUsbDeviceCount (fun _ => Resolved usb_no_usb_text) = inr 0%Z).
Proof. repeat split; vm_compute; reflexivity. Qed.

(** C6, amended.  On output of 7-bit characters the peripheral parser
    returns 0 when the output is empty, all white space, or has the text
    [No USB] anywhere in it; otherwise it returns the number of lines that
    begin with four spaces and an ASCII letter and whose trimmed,
    lower-cased text contains no denylisted substring.  That is the number
    of external entries of the dump whenever the text [No USB] is absent
    and every line at the entry level begins its name with a letter.  An
    external entry on the last line, with nothing after it, adds one to the
    count; and for the list with the entries Apple Internal Keyboard and
    SanDisk USB Drive the count is 1. *)
Theorem usb_count_is_external_count (os : OS) (stdout : string) :
  os ProfilerUsb = Resolved stdout ->
  seven_bit stdout = true ->
  (all_space stdout = true
   \/ (exists before rest, stdout = before ++ "No USB" ++ rest) ->
   getUsbDeviceCount os = inr 0%Z)
  /\ (all_space stdout = false ->
      ~ (exists before rest, stdout = before ++ "No USB" ++ rest) ->
      getUsbDeviceCount os = inr (counted_lines stdout))
  /\ (~ (exists before rest, stdout = before ++ "No USB" ++ rest) ->
      (forall l, In l (split_lf stdout) ->
         Spec.is_entry_line l = true -> letter_entry_line l = true) ->
      getUsbDeviceCount os = inr (Spec.external_count stdout))
  /\ (forall l,
        letter_entry_line l = true -> includes LFs l = false ->
        Spec.is_internal (trim l) = false ->
        usb_scan (stdout ++ String LF l) = (usb_scan stdout + 1)%Z)
  /\ Spec.device_entries usb_two_devices
     = ["Apple Internal Keyboard:"; "SanDisk USB Drive:"]
  /\ getUsbDeviceCount (fun _ => Resolved usb_two_devices) = inr 1%Z.
Proof.
  intros Hos _.
  assert (Hcount : getUsbDeviceCount os
                   = inr (if all_space stdout || includes "No USB" stdout
                          then 0%Z else counted_lines stdout)).
  { rewrite getUsbDeviceCount_returns, Hos. f_equal.
    unfold usb_count_of_output, counted_lines.
    rewrite usb_no_data_closed.
    destruct (all_space stdout || includes "No USB" stdout); [reflexivity |].
    now rewrite usb_scan_counts, count_external_counted. }
  assert (Hmarker : includes "No USB" stdout = true <->
                    exists before rest, stdout = before ++ "No USB" ++ rest)
    by apply includes_app.
  split; [| split; [| split; [| split; [| split]]]].
  - intros [Hb | Hm]; rewrite Hcount.
    + now rewrite Hb.
    + apply Hmarker in Hm. rewrite Hm, orb_true_r. reflexivity.
  - intros Hb Hm. rewrite Hcount, Hb.
    destruct (includes "No USB" stdout); [| reflexivity].
    exfalso. now apply Hm, Hmarker.
  - intros Hm Hletters. rewrite Hcount.
    destruct (includes "No USB" stdout) eqn:Hinc;
      [exfalso; now apply Hm, Hmarker |].
    rewrite orb_false_r.
    unfold Spec.external_count, Spec.device_entries.
    destruct (all_space stdout) eqn:Hb.
    { now rewrite (blank_no_entries stdout Hb). }
    f_equal. unfold counted_lines. f_equal.
    assert (Hsame : filter Spec.is_entry_line (split_lf stdout)
                    = filter letter_entry_line (split_lf stdout)).
    { apply filter_ext_in. intros l Hl.
      destruct (letter_entry_line l) eqn:Hletter.
      - now apply letter_entry_is_entry.
      - destruct (Spec.is_entry_line l) eqn:Hentry; [| reflexivity].
        now rewrite (Hletters l Hl Hentry) in Hletter. }
    rewrite Hsame. clear.
    induction (split_lf stdout) as [|l ls IH]; [reflexivity |].
    cbn [filter]. unfold counted_line at 1.
    destruct (letter_entry_line l); cbn [filter andb map]; [| exact IH].
    destruct (negb (Spec.is_internal (trim l))); cbn [List.length];
      now rewrite IH.
  - intros l Hdev Hlf Hext.
    rewrite !usb_scan_counts, split_lf_app, count_external_app.
    rewrite (split_lf_single l Hlf). unfold count_external at 2.
    cbn [filter]. rewrite is_device_line_letter, Hdev. cbn [filter].
    unfold external_line. rewrite Hext. reflexivity.
  - vm_compute. reflexivity.
  - vm_compute. reflexivity.
Qed.

(** The list with the two entries: the count is that of its external
    entries, and a further external entry on a last line adds one. *)
Lemma usb_count_is_external_count_witness :
  getUsbDeviceCount (fun _ => Resolved usb_two_devices)
  = inr (Spec.external_count usb_two_devices)
  /\ usb_scan (usb_two_devices ++ String LF "    Logitech Receiver:")
     = (usb_scan usb_two_devices + 1)%Z.
Proof.
  assert (H7 : seven_bit usb_two_devices = true) by (vm_compute; reflexivity).
  destruct (usb_count_is_external_count
              (fun _ => Resolved usb_two_devices) usb_two_devices eq_refl H7)
    as (_ & _ & Hspec & Hlast & _).
  split.
  - apply Hspec.
    + intros Hm. apply includes_app in Hm. vm_compute in Hm. discriminate Hm.
    + intros l Hl Hentry. vm_compute in Hl.
      repeat (destruct Hl as [<- | Hl];
              [first [ reflexivity | discriminate Hentry ] |]).
      destruct Hl.
  - apply Hlast; vm_compute; reflexivity.
Defined.

(** C7, as stated, fails: the value [Connected] contains [on], yet the
    probe reports the radio as not enabled. *)
Lemma radio_value_contains_on_counterexample :
  checkBluetooth (fun _ => Resolved "State: Connected")
  = inr {| bluetoothEnabled := false |}
  /\ Spec.matched_value (toLowerCase "State: Connected") = Some " connected"
  /\ Spec.radio_enabled "State: Connected" = true.
Proof. repeat split; vm_compute; reflexivity. Qed.

(** The text [: on] after another key than State or Power counts as
    well. *)
Example on_after_another_key :
  checkBluetooth (fun _ => Resolved "State: Off, Discoverable: On")
  = inr {| bluetoothEnabled := true |}.
Proof. vm_compute. reflexivity. Qed.

(** C7, amended. [checkBluetooth] reports the radio enabled exactly when
    the command succeeds and its lower-cased output contains a colon, one
    space and [on], in this order and adjacent. *)
Theorem bluetooth_enabled_iff_colon_space_on (os : OS) :
  exists b, checkBluetooth os = inr b
    /\ (bluetoothEnabled b = true <->
        exists stdout before rest,
          os ProfilerBluetooth = Resolved stdout
          /\ toLowerCase stdout = before ++ ": on" ++ rest).
Proof.
  rewrite checkBluetooth_returns. eexists. split; [reflexivity |].
  cbn [bluetoothEnabled].
  destruct (os ProfilerBluetooth) as [stdout|].
  - rewrite includes_app. split.
    + intros [a [c H]]. now exists stdout, a, c.
    + intros [out [a [c [Hout H]]]]. inversion Hout; subst. now exists a, c.
  - split; [discriminate |]. intros [out [a [c [Hout _]]]]. discriminate.
Qed.

(* ===================================================================== *)
(** ** The evaluation *)
(* ===================================================================== *)

(** C2. For every combination of the four probe results, the message the
    monitor tick hands to [showWarningWindow] is the message of the first
    kind, in the order MultiDisplay, ConferenceAppNotRunning,
    CameraInactive, RadioEnabled, PeripheralAttached, whose rule holds; and
    when no rule holds no warning is raised. *)
Theorem headline_is_first_true_violation
    (displayCount : Z) (running cameraActive sharing enabled : bool)
    (count : Z) :
  let r := {| displayResult := displayCount;
              zoomResult := {| zoomRunning := running;
                               cameraInUse := cameraActive;
                               screenSharing := sharing |};
              bluetoothResult := {| bluetoothEnabled := enabled |};
              usbResult := usbResultOf count |} in
  MonitorSite.warning r
  = option_map Spec.message
      (Spec.headline displayCount running cameraActive enabled count)
  /\ (MonitorSite.warning r = None <->
      forall k, Spec.holds displayCount running cameraActive enabled count k
                = false).
Proof.
  cbv zeta.
  unfold MonitorSite.warning, MonitorSite.anyIssue, MonitorSite.issueMessage,
    MonitorSite.hasDisplayIssue, MonitorSite.hasCameraIssue,
    MonitorSite.hasBluetoothIssue, MonitorSite.hasUsbIssue,
    Spec.headline, Spec.priority, usbResultOf.
  cbn [displayResult zoomResult bluetoothResult usbResult zoomRunning
       cameraInUse bluetoothEnabled hasUsbDevices find Spec.holds].
  destruct (1 <? displayCount)%Z eqn:Hd, running, cameraActive, enabled,
    (0 <? count)%Z eqn:Hc; cbn;
    (split; [reflexivity |]); split; intros H;
    try discriminate; try reflexivity;
    try (intros k; destruct k; cbn; rewrite ?Hd, ?Hc; reflexivity).
  all: first
    [ specialize (H Spec.MultiDisplay); cbn in H; rewrite Hd in H;
      discriminate H
    | discriminate (H Spec.ConferenceAppNotRunning)
    | discriminate (H Spec.CameraInactive)
    | discriminate (H Spec.RadioEnabled)
    | specialize (H Spec.PeripheralAttached); cbn in H; rewrite Hc in H;
      discriminate H ].
Qed.

(** C10. On the same four readings the monitor tick, the resolve tick and
    the [warning-timer-expired] handler compute the same four booleans, and
    so agree on whether a violation exists. *)
Theorem evaluation_sites_agree (r : Readings) :
  (MonitorSite.hasDisplayIssue r = ResolveSite.hasDisplayIssue r
   /\ ResolveSite.hasDisplayIssue r = ExpiredSite.hasDisplayIssue r)
  /\ (MonitorSite.hasCameraIssue r = ResolveSite.hasCameraIssue r
      /\ ResolveSite.hasCameraIssue r = ExpiredSite.hasCameraIssue r)
  /\ (MonitorSite.hasBluetoothIssue r = ResolveSite.hasBluetoothIssue r
      /\ ResolveSite.hasBluetoothIssue r = ExpiredSite.hasBluetoothIssue r)
  /\ (MonitorSite.hasUsbIssue r = ResolveSite.hasUsbIssue r
      /\ ResolveSite.hasUsbIssue r = ExpiredSite.hasUsbIssue r)
  /\ MonitorSite.anyIssue r = ExpiredSite.anyIssue r
  /\ ResolveSite.resolved r = negb (MonitorSite.anyIssue r).
Proof.
  repeat split; try reflexivity.
  unfold ResolveSite.resolved, MonitorSite.anyIssue.
  change (ResolveSite.hasDisplayIssue r) with (MonitorSite.hasDisplayIssue r).
  change (ResolveSite.hasCameraIssue r) with (MonitorSite.hasCameraIssue r).
  change (ResolveSite.hasBluetoothIssue r) with (MonitorSite.hasBluetoothIssue r).
  change (ResolveSite.hasUsbIssue r) with (MonitorSite.hasUsbIssue r).
  destruct (MonitorSite.hasDisplayIssue r), (MonitorSite.hasCameraIssue r),
    (MonitorSite.hasBluetoothIssue r), (MonitorSite.hasUsbIssue r);
    reflexivity.
Qed.

(* ===================================================================== *)
(** ** The order of the probe calls *)
(* ===================================================================== *)


(** C9, as stated, fails: the monitor tick awaits the conferencing probe
    before it issues the radio probe, so a slow conferencing probe delays
    the start of the radio and peripheral probes. *)
Lemma probes_issued_concurrently_counterexample :
  Schedule.issued_before_any_await Schedule.monitorTick = false
  /\ Schedule.startedAt (Schedule.exec slow_zoom Schedule.monitorTick)
       Schedule.Bluetooth = Some 5
  /\ Schedule.startedAt (Schedule.exec slow_zoom Schedule.monitorTick)
       Schedule.UsbDevices = Some 5.
Proof. repeat split; reflexivity. Qed.

(** C9, amended. At each of the three sites the display count is read
    first and the three asynchronous probes run one after the other, each
    started only when the one before has completed; the evaluation runs
    after all four have completed. *)
Theorem probes_issued_in_sequence
    (latency : Schedule.Probe -> nat) (body : list Schedule.Instr) :
  In body [Schedule.monitorTick; Schedule.resolveTick;
           Schedule.warningTimerExpired] ->
  let tl := Schedule.exec latency body in
  Schedule.startedAt tl Schedule.Displays = Some 0
  /\ Schedule.startedAt tl Schedule.ZoomCamera = Some 0
  /\ Schedule.startedAt tl Schedule.Bluetooth
     = Some (latency Schedule.ZoomCamera)
  /\ Schedule.startedAt tl Schedule.UsbDevices
     = Some (latency Schedule.ZoomCamera + latency Schedule.Bluetooth)
  /\ Schedule.evaluatedAt tl
     = Some (latency Schedule.ZoomCamera + latency Schedule.Bluetooth
             + latency Schedule.UsbDevices).
Proof.
  intros Hin.
  assert (body = Schedule.monitorTick) as ->.
  { simpl in Hin. destruct Hin as [<- | [<- | [<- | []]]]; reflexivity. }
  cbv zeta. unfold Schedule.exec, Schedule.monitorTick, Schedule.awaitCall.
  cbn.
  repeat split; f_equal; lia.
Qed.

Lemma probes_issued_in_sequence_witness :
  Schedule.startedAt (Schedule.exec slow_zoom Schedule.resolveTick)
    Schedule.Bluetooth = Some 5.
Proof.
  apply (probes_issued_in_sequence slow_zoom Schedule.resolveTick).
  simpl. right. left. reflexivity.
Defined.

(* ===================================================================== *)
(** ** The invariant of the state machine *)
(* ===================================================================== *)

Lemma Inv_init : Inv init.
Proof. inv_done. Qed.

Lemma Inv_stopResolveCheck (s : State) : Inv s -> Inv (stopResolveCheck s).
Proof.
  intros H. break_state s. break_inv H. unfold stopResolveCheck, clearInterval.
  cbn. destruct res as [hr|], mon as [hm|]; cbn; eqb_cases; cbn; inv_done.
Qed.

Lemma Inv_stopMonitoring (s : State) : Inv s -> Inv (stopMonitoring s).
Proof.
  intros H. break_state s. break_inv H. unfold stopMonitoring, clearInterval.
  cbn. destruct res as [hr|], mon as [hm|]; cbn; eqb_cases; cbn; inv_done.
Qed.

Lemma Inv_closeWarningIfOpen (s : State) : Inv s -> Inv (closeWarningIfOpen s).
Proof.
  intros H. unfold closeWarningIfOpen.
  destruct (warningWindow s) as [w|] eqn:Hw; [| assumption].
  destruct (surface_open s w); [| assumption].
  break_state s. break_inv H. unfold requestClose. inv_done.
Qed.

Lemma Inv_surfaceClosed (s : State) (w : Handle) :
  Inv s -> Inv (surfaceClosed w s).
Proof.
  intros H. break_state s. break_inv H. unfold surfaceClosed. inv_done.
  use_premonitoring. subst. repeat split; assumption.
Qed.

Lemma Inv_set_isShowingWarning_false (s : State) :
  Inv s -> Inv (set_isShowingWarning false s).
Proof. intros H. break_state s. break_inv H. inv_done. Qed.

Lemma Inv_set_sessionTerminated (s : State) (b : bool) :
  Inv s -> Inv (set_sessionTerminated b s).
Proof. intros H. break_state s. break_inv H. inv_done. Qed.

Lemma Inv_set_mainSimpleFullScreen (s : State) (b : bool) :
  Inv s -> Inv (set_mainSimpleFullScreen b s).
Proof. intros H. break_state s. break_inv H. inv_done. Qed.

Lemma Inv_set_mainClosable (s : State) (b : bool) :
  Inv s -> Inv (set_mainClosable b s).
Proof. intros H. break_state s. break_inv H. inv_done. Qed.

Lemma Inv_set_mainContent (s : State) (p : Page) :
  Inv s -> Inv (set_mainContent p s).
Proof. intros H. break_state s. break_inv H. inv_done. Qed.

Lemma Inv_set_quitRequested (s : State) (b : bool) :
  Inv s -> Inv (set_quitRequested b s).
Proof. intros H. break_state s. break_inv H. inv_done. Qed.

Lemma Inv_set_endTimeouts (s : State) (n : nat) :
  Inv s -> Inv (set_endTimeouts n s).
Proof. intros H. break_state s. break_inv H. inv_done. Qed.

Lemma Inv_closeWarningWindow (s : State) : Inv s -> Inv (closeWarningWindow s).
Proof.
  intros H. unfold closeWarningWindow.
  now apply Inv_set_isShowingWarning_false, Inv_closeWarningIfOpen,
    Inv_stopResolveCheck.
Qed.

Lemma Inv_terminateChessSession (s : State) :
  Inv s -> Inv (terminateChessSession s).
Proof.
  intros H. unfold terminateChessSession.
  now apply Inv_set_mainContent, Inv_set_mainSimpleFullScreen,
    Inv_closeWarningIfOpen, Inv_stopResolveCheck, Inv_stopMonitoring,
    Inv_set_isShowingWarning_false, Inv_set_sessionTerminated.
Qed.

Lemma Inv_onEndProctor (s : State) : Inv s -> Inv (onEndProctor s).
Proof.
  intros H. unfold onEndProctor.
  now apply Inv_set_endTimeouts, Inv_set_mainClosable,
    Inv_set_mainSimpleFullScreen, Inv_closeWarningIfOpen, Inv_stopMonitoring.
Qed.

Lemma Inv_onWindowOpen (s : State) (url : string) :
  Inv s -> Inv (onWindowOpen url s).
Proof.
  intros H. unfold onWindowOpen.
  destruct (fst (windowOpenHandler url)); [| assumption].
  now apply Inv_set_mainContent.
Qed.

Lemma begun_or_premonitoring (s : State) :
  Inv s -> monitoring_begun s \/ premonitoring s.
Proof.
  intros H. unfold monitoring_begun.
  destruct (proctorStarted s) eqn:Hp.
  - destruct (Nat.eq_dec (startTimeouts s) 0) as [Hz|Hnz].
    + left. split; [reflexivity | exact Hz].
    + right. apply (inv_premonitoring s H). right. exact Hnz.
  - right. apply (inv_premonitoring s H). left. exact Hp.
Qed.

Lemma show_dropped (s : State) (issue : string) :
  show_guard s = true -> showWarningWindow issue s = s.
Proof.
  unfold show_guard, showWarningWindow. intros H.
  destruct (isShowingWarning s || sessionTerminated s); [reflexivity |].
  cbn in H. now rewrite H.
Qed.

Lemma show_opens (s : State) (issue : string) :
  show_guard s = false ->
  let s' := showWarningWindow issue s in
  isShowingWarning s' = true
  /\ warningSurfaces s' = (nextHandle s, issue) :: warningSurfaces s
  /\ warningWindow s' = Some (nextHandle s)
  /\ sessionTerminated s' = false.
Proof.
  unfold show_guard, showWarningWindow. intros H.
  apply orb_false_elim in H as [H Hl]. rewrite H, Hl.
  apply orb_false_elim in H as [_ Ht].
  break_state s. cbn in Ht. subst.
  unfold stopResolveCheck, clearInterval, openWarningSurface, setInterval.
  cbn. destruct res; cbn; repeat split; reflexivity.
Qed.

Lemma Inv_showWarningWindow (s : State) (issue : string) :
  Inv s -> monitoring_begun s -> Inv (showWarningWindow issue s).
Proof.
  intros H Hb. destruct (show_guard s) eqn:Hg.
  - now rewrite show_dropped.
  - unfold show_guard in Hg. unfold showWarningWindow.
    apply orb_false_elim in Hg as [Hg Hl]. rewrite Hg, Hl.
    apply orb_false_elim in Hg as [Hw Ht]. destruct Hb as [Hb1 Hb2].
    clear Hl.
    break_state s. break_inv H.
    unfold stopResolveCheck, clearInterval, openWarningSurface, setInterval.
    cbn. destruct res as [hr|], mon as [hm|]; cbn; eqb_cases; cbn; inv_done.
    all: try (rewrite Nat.eqb_refl; reflexivity).
Qed.

Lemma forallb_nth_error {A : Type} (P : A -> bool) (l : list A) (k : nat) (a : A) :
  forallb P l = true -> nth_error l k = Some a -> P a = true.
Proof.
  revert k. induction l as [|x l IH]; intros [|k]; simpl; try discriminate.
  - intros H E. injection E as <-. now apply andb_prop in H.
  - intros H E. apply andb_prop in H. now apply (IH k).
Qed.

Lemma forallb_remove_nth {A : Type} (P : A -> bool) (l : list A) (k : nat) :
  forallb P l = true -> forallb P (remove_nth k l) = true.
Proof.
  revert k. induction l as [|x l IH]; intros [|k]; simpl; try reflexivity.
  - intros H. now apply andb_prop in H.
  - intros H. apply andb_prop in H as [Hx Hl]. now rewrite Hx, IH.
Qed.

Lemma Inv_remove_suspended (s : State) (k : nat) :
  Inv s -> Inv (set_suspended (remove_nth k (suspended s)) s).
Proof.
  intros H. break_state s. break_inv H. inv_done.
  use_premonitoring.
  repeat split; try assumption. now apply forallb_remove_nth.
Qed.

Lemma Inv_suspend (s : State) (c : Suspended) :
  Inv s -> is_expired c = true \/ monitoring_begun s -> Inv (suspend c s).
Proof.
  intros H Hc. unfold monitoring_begun in Hc. break_state s. break_inv H.
  unfold suspend. inv_done.
  use_premonitoring.
  repeat split; try assumption.
  rewrite forallb_app. cbn.
  destruct Hc as [-> | [? ?]]; [now rewrite andb_true_r |].
  subst. intuition (congruence || lia).
Qed.

Lemma Inv_onStartProctor (s : State) : Inv s -> Inv (onStartProctor s).
Proof.
  intros H. break_state s. break_inv H. unfold onStartProctor. cbn.
  destruct started; cbn; inv_done.
  all: match goal with
       | H : false = false -> _ |- _ => specialize (H eq_refl)
       end; try lia.
Qed.

Lemma Inv_startTimeout (s : State) :
  Inv s -> startTimeouts s <> 0 -> Inv (startTimeout s).
Proof.
  intros H Hn. break_state s. break_inv H.
  unfold startTimeout, startActiveMonitoring, setInterval. cbn.
  match goal with
  | H : _ -> _ /\ _ /\ _ /\ _ /\ _ /\ _ |- _ =>
      destruct H as (? & ? & ? & ? & ? & ?); [right; assumption |]
  end.
  subst. destruct started; [| intuition lia].
  inv_done.
Qed.

Lemma timer_begun (s : State) (h : Handle) (k : TimerKind) :
  Inv s -> timer_kind s h = Some k -> monitoring_begun s.
Proof.
  intros H Hk. destruct (begun_or_premonitoring s H) as [|Hp]; [assumption |].
  destruct Hp as (Hm & Hr & _). unfold timer_kind in Hk.
  rewrite (inv_timers s H) in Hk. unfold tracked_timers in Hk.
  rewrite Hm, Hr in Hk. discriminate Hk.
Qed.

Lemma suspended_begun (s : State) (k : nat) (c : Suspended) :
  Inv s -> nth_error (suspended s) k = Some c -> is_expired c = false ->
  monitoring_begun s.
Proof.
  intros H Hk Hc. destruct (begun_or_premonitoring s H) as [|Hp]; [assumption |].
  destruct Hp as (_ & _ & _ & _ & _ & Hall).
  rewrite (forallb_nth_error _ _ _ _ Hall Hk) in Hc. discriminate Hc.
Qed.

Lemma Inv_monitorTick (s : State) (d : Z) :
  Inv s -> monitoring_begun s -> Inv (monitorTick d s).
Proof.
  intros H Hb. unfold monitorTick.
  destruct (sessionTerminated s || isShowingWarning s); [assumption |].
  apply Inv_suspend; auto.
Qed.

Lemma Inv_resolveTick (s : State) (d : Z) :
  Inv s -> monitoring_begun s -> Inv (resolveTick d s).
Proof.
  intros H Hb. unfold resolveTick.
  destruct (negb (isShowingWarning s) || sessionTerminated s).
  - apply Inv_stopResolveCheck in H. unfold stopResolveCheck in H.
    destruct (resolveCheckInterval s) eqn:Hr; [exact H |].
    break_state s. break_inv H. inv_done.
  - apply Inv_suspend; auto.
Qed.

Lemma Inv_resume (s : State) (c : Suspended) (os : OS) :
  Inv s -> (is_expired c = false -> monitoring_begun s) ->
  Inv (resume c os s).
Proof.
  intros H Hb. destruct c as [d|d|d]; cbn [resume].
  - unfold monitorResume. destruct (probeAll d os) as [|r]; [assumption |].
    destruct (MonitorSite.warning r); [| assumption].
    apply Inv_showWarningWindow; auto.
  - unfold resolveResume. destruct (probeAll d os) as [|r]; [assumption |].
    destruct (ResolveSite.resolved r); [| assumption].
    now apply Inv_closeWarningWindow.
  - unfold expiredResume. destruct (probeAll d os) as [|r]; [assumption |].
    destruct (ExpiredSite.anyIssue r).
    + now apply Inv_terminateChessSession.
    + now apply Inv_closeWarningWindow.
Qed.

(** Every event keeps the invariant. *)
Lemma Inv_step (s s' : State) (e : Event) :
  Inv s -> step s e = Some s' -> Inv s'.
Proof.
  intros H Hstep. destruct e as [| |h d|k os|d|w| | | |url]; cbn [step] in Hstep.
  - injection Hstep as <-. now apply Inv_onStartProctor.
  - destruct (startTimeouts s) as [|n] eqn:Hn; cbn in Hstep; [discriminate |].
    injection Hstep as <-. apply Inv_startTimeout; [assumption | lia].
  - destruct (timer_kind s h) as [[|]|] eqn:Hk; try discriminate;
      injection Hstep as <-.
    + apply Inv_monitorTick; [assumption | eapply timer_begun; eauto].
    + apply Inv_resolveTick; [assumption | eapply timer_begun; eauto].
  - destruct (nth_error (suspended s) k) as [c|] eqn:Hk; [| discriminate].
    injection Hstep as <-. apply Inv_resume.
    + now apply Inv_remove_suspended.
    + intros Hc. pose proof (suspended_begun s k c H Hk Hc) as Hb.
      destruct s; exact Hb.
  - injection Hstep as <-. apply Inv_suspend; [assumption | now left].
  - destruct (surface_open s w) eqn:Hw; [| discriminate].
    injection Hstep as <-. now apply Inv_surfaceClosed.
  - injection Hstep as <-. now apply Inv_onEndProctor.
  - destruct (0 <? endTimeouts s)%nat; [| discriminate].
    injection Hstep as <-. unfold endTimeout.
    now apply Inv_set_quitRequested, Inv_set_endTimeouts.
  - injection Hstep as <-. now apply Inv_set_quitRequested.
  - injection Hstep as <-. now apply Inv_onWindowOpen.
Qed.

Lemma Inv_run (es : list Event) (s s' : State) :
  Inv s -> run s es = Some s' -> Inv s'.
Proof.
  revert s. induction es as [|e es IH]; intros s H Hrun; simpl in Hrun.
  - now injection Hrun as <-.
  - destruct (step s e) as [s1|] eqn:He; [| discriminate].
    exact (IH s1 (Inv_step s s1 e H He) Hrun).
Qed.

Lemma reachable_Inv (s : State) : reachable s -> Inv s.
Proof. intros [es Hes]. exact (Inv_run es init s Inv_init Hes). Qed.

Lemma run_app (es1 es2 : list Event) (s s1 : State) :
  run s es1 = Some s1 -> run s (es1 ++ es2) = run s1 es2.
Proof.
  revert s. induction es1 as [|e es1 IH]; intros s; simpl.
  - now intros [= ->].
  - destruct (step s e); [apply IH | discriminate].
Qed.

Lemma reachable_run (es : list Event) (s s' : State) :
  reachable s -> run s es = Some s' -> reachable s'.
Proof.
  intros [es0 H0] H. exists (es0 ++ es)%list. now rewrite (run_app es0 es init s).
Qed.

(* ===================================================================== *)
(** ** The two one-way flags *)
(* ===================================================================== *)

(** No handler assigns [false] to [sessionTerminated] or to
    [proctorStarted]. *)
Lemma stimulate_flags (s s' : State) (x : Stimulus) :
  stimulate s x = Some s' ->
  (sessionTerminated s = true -> sessionTerminated s' = true)
  /\ (proctorStarted s = true -> proctorStarted s' = true).
Proof.
  intros H. break_state s. destruct x as [[| |h d|k os|d|w| | | |url]|issue];
    cbn [stimulate step] in H; split_cases_in H;
    try discriminate H; injection H as <-;
    unfold_handlers; cbn; split_cases; auto.
Qed.

Lemma stimulate_all_flags (xs : list Stimulus) (s s' : State) :
  stimulate_all s xs = Some s' ->
  (sessionTerminated s = true -> sessionTerminated s' = true)
  /\ (proctorStarted s = true -> proctorStarted s' = true).
Proof.
  revert s. induction xs as [|x xs IH]; intros s H; simpl in H.
  - injection H as <-. auto.
  - destruct (stimulate s x) as [s1|] eqn:Hx; [| discriminate].
    destruct (stimulate_flags s s1 x Hx), (IH s1 H). auto.
Qed.

Lemma run_as_stimuli (es : list Event) (s : State) :
  run s es = stimulate_all s (map Happens es).
Proof.
  revert s. induction es as [|e es IH]; intros s; simpl; [reflexivity |].
  destruct (step s e); [apply IH | reflexivity].
Qed.

Lemma start_rejected_when_started (s : State) :
  proctorStarted s = true -> step s IpcStartProctor = Some s.
Proof. intros H. cbn. unfold onStartProctor. now rewrite H. Qed.

Lemma showing_implies_started (s : State) :
  Inv s -> isShowingWarning s = true -> monitoring_begun s.
Proof.
  intros H Hw. destruct (begun_or_premonitoring s H) as [|Hp]; [assumption |].
  destruct Hp as (_ & _ & Hs & _). congruence.
Qed.

(* ===================================================================== *)
(** ** What termination and closing leave behind *)
(* ===================================================================== *)

Lemma probeAll_usb_flag (displays : Z) (os : OS) (r : Readings) :
  probeAll displays os = inr r ->
  hasUsbDevices (usbResult r) = (0 <? count (usbResult r))%Z.
Proof.
  unfold probeAll, checkUsbDevices.
  destruct (checkZoomCamera_returns os) as [z Hz].
  rewrite Hz, checkBluetooth_returns, getUsbDeviceCount_returns. simpl.
  intros [= <-]. reflexivity.
Qed.

(** On readings whose USB flag says whether the count is positive, the
    three sites decide by the rules of the specification. *)
Lemma verdicts_by_rules (r : Readings) :
  hasUsbDevices (usbResult r) = (0 <? count (usbResult r))%Z ->
  MonitorSite.warning r = option_map Spec.message (headline_of r)
  /\ ExpiredSite.anyIssue r = violated r
  /\ ResolveSite.resolved r = negb (violated r).
Proof.
  destruct r as [d [running cam sharing] [enabled] [flag n]]. cbn. intros ->.
  unfold MonitorSite.warning, MonitorSite.anyIssue, MonitorSite.issueMessage,
    ExpiredSite.anyIssue, ResolveSite.resolved, violated, headline_of,
    Spec.headline,
    Spec.priority.
  unfold MonitorSite.hasDisplayIssue, MonitorSite.hasCameraIssue,
    MonitorSite.hasBluetoothIssue, MonitorSite.hasUsbIssue,
    ExpiredSite.hasDisplayIssue, ExpiredSite.hasCameraIssue,
    ExpiredSite.hasBluetoothIssue, ExpiredSite.hasUsbIssue,
    ResolveSite.hasDisplayIssue, ResolveSite.hasCameraIssue,
    ResolveSite.hasBluetoothIssue, ResolveSite.hasUsbIssue.
  cbn.
  destruct (1 <? d)%Z, running, cam, enabled, (0 <? n)%Z; cbn;
    repeat split; reflexivity.
Qed.

Lemma probe_verdicts (displays : Z) (os : OS) (r : Readings) :
  probeAll displays os = inr r ->
  MonitorSite.warning r = option_map Spec.message (headline_of r)
  /\ ExpiredSite.anyIssue r = violated r
  /\ ResolveSite.resolved r = negb (violated r).
Proof. intros H. exact (verdicts_by_rules r (probeAll_usb_flag _ _ _ H)). Qed.

Lemma terminate_facts (s : State) :
  Inv s ->
  let s' := terminateChessSession s in
  sessionTerminated s' = true /\ isShowingWarning s' = false
  /\ monitoringInterval s' = None /\ resolveCheckInterval s' = None
  /\ timers s' = [] /\ warningWindow s' = None
  /\ warningSurfaces s' = warningSurfaces s
  /\ closing s' = match warningWindow s with
                  | Some w => w :: closing s
                  | None => closing s
                  end
  /\ mainContent s' = TerminatedPage
  /\ proctorStarted s' = proctorStarted s
  /\ startTimeouts s' = startTimeouts s.
Proof.
  intros H. break_state s. break_inv H. unfold_handlers. cbn.
  destruct mon as [hm|], res as [hr|], ww as [w|]; cbn;
    try rewrite (Hopen _ eq_refl);
    repeat (progress eqb_cases; cbn); repeat split; try reflexivity;
    try match goal with
      | Hd : forall a b, Some ?x = Some a -> Some ?y = Some b -> a <> b |- _ =>
          exfalso; exact (Hd x y eq_refl eq_refl eq_refl)
      end.
Qed.

Lemma close_facts (s : State) :
  Inv s ->
  let s' := closeWarningWindow s in
  isShowingWarning s' = false /\ resolveCheckInterval s' = None
  /\ warningWindow s' = None
  /\ warningSurfaces s' = warningSurfaces s
  /\ closing s' = match warningWindow s with
                  | Some w => w :: closing s
                  | None => closing s
                  end
  /\ timers s' = match monitoringInterval s with
                 | Some h => [(h, MonitorTimer)]
                 | None => []
                 end
  /\ monitoringInterval s' = monitoringInterval s
  /\ sessionTerminated s' = sessionTerminated s
  /\ proctorStarted s' = proctorStarted s
  /\ mainContent s' = mainContent s.
Proof.
  intros H. break_state s. break_inv H. unfold_handlers. cbn.
  destruct mon as [hm|], res as [hr|], ww as [w|]; cbn;
    try rewrite (Hopen _ eq_refl);
    repeat (progress eqb_cases; cbn); repeat split; try reflexivity;
    try match goal with
      | Hd : forall a b, Some ?x = Some a -> Some ?y = Some b -> a <> b |- _ =>
          exfalso; exact (Hd x y eq_refl eq_refl eq_refl)
      end.
Qed.

(* ===================================================================== *)
(** ** The state machine *)
(* ===================================================================== *)

(** With compliant readings a monitor tick leaves the session Active. *)
Example compliant_tick_stays_active :
  option_map phase
    (run init [IpcStartProctor; StartTimeoutFires; IntervalFires 0 1;
               Resumes 0 os_compliant])
  = Some Active.
Proof. vm_compute. reflexivity. Qed.

(** The camera goes off: the monitor tick raises the warning with that
    headline; the camera comes back: the resolve tick closes the warning,
    only the monitor timer keeps running, and the window is gone once its
    [closed] event has come. *)
Example camera_off_then_on :
  let warned := state_after [IpcStartProctor; StartTimeoutFires;
                             IntervalFires 0 1; Resumes 0 os_camera_off] in
  phase warned = Warning
  /\ warningSurfaces warned = [(1, "Camera has been turned off")]
  /\ timers warned = [(2, ResolveTimer); (0, MonitorTimer)]
  /\ exists s, run warned [IntervalFires 2 1; Resumes 0 os_compliant] = Some s
       /\ phase s = Active /\ closing s = [1]
       /\ timers s = [(0, MonitorTimer)]
       /\ option_map warningSurfaces (step s (WarningSurfaceClosed 1))
          = Some [].
Proof.
  cbv zeta. repeat split; try (vm_compute; reflexivity).
  eexists. split; [vm_compute; reflexivity |].
  repeat split; reflexivity.
Qed.

(** A second display wins over every other violation. *)
Example two_displays_headline :
  option_map warningSurfaces
    (run init [IpcStartProctor; StartTimeoutFires; IntervalFires 0 2;
               Resumes 0 os_all_fail])
  = Some [(1, "External display detected")].
Proof. vm_compute. reflexivity. Qed.

(** C1, as stated, fails: a session terminated before it was started
    accepts the start request, which marks it started, locks the window
    and loads the game. *)
Lemma start_after_termination_counterexample :
  exists s s',
    run init run_terminated_before_start = Some s
    /\ sessionTerminated s = true
    /\ step s IpcStartProctor = Some s'
    /\ s' <> s
    /\ proctorStarted s = false /\ proctorStarted s' = true
    /\ mainContent s = TerminatedPage /\ mainContent s' = GamePage.
Proof.
  eexists. eexists. split; [vm_compute; reflexivity |].
  split; [reflexivity |]. split; [vm_compute; reflexivity |].
  split; [discriminate |]. repeat split; reflexivity.
Qed.

(** C1, amended. Once [sessionTerminated] is true, no sequence of events
    and of calls of [showWarningWindow] makes it false again: the session
    stays Terminated.  A start request after termination changes nothing
    when the session had been started before; and it had been in every
    state that follows a reachable Warning state. *)
Theorem terminated_is_one_way :
  (forall s xs s',
     sessionTerminated s = true -> stimulate_all s xs = Some s' ->
     sessionTerminated s' = true /\ phase s' = Terminated
     /\ (proctorStarted s = true -> step s' IpcStartProctor = Some s'))
  /\ (forall s es s',
        reachable s -> phase s = Warning -> run s es = Some s' ->
        proctorStarted s' = true).
Proof.
  split.
  - intros s xs s' Ht Hrun.
    destruct (stimulate_all_flags xs s s' Hrun) as [Hterm Hstart].
    split; [auto |]. split.
    + unfold phase. now rewrite (Hterm Ht).
    + intros Hs. apply start_rejected_when_started. auto.
  - intros s es s' Hr Hph Hrun.
    rewrite run_as_stimuli in Hrun.
    apply (stimulate_all_flags _ _ _ Hrun).
    apply (showing_implies_started s (reachable_Inv s Hr)).
    unfold phase in Hph.
    destruct (sessionTerminated s); [discriminate |].
    destruct (isShowingWarning s); [reflexivity |].
    destruct (proctorStarted s); discriminate.
Qed.

Lemma terminated_is_one_way_witness :
  let s' := after_stimuli terminated_from_warning stimuli_after_termination in
  sessionTerminated s' = true /\ phase s' = Terminated
  /\ step s' IpcStartProctor = Some s'.
Proof.
  assert (Ht : sessionTerminated terminated_from_warning = true)
    by (vm_compute; reflexivity).
  assert (Hr : stimulate_all terminated_from_warning stimuli_after_termination
               = Some (after_stimuli terminated_from_warning
                         stimuli_after_termination))
    by (vm_compute; reflexivity).
  assert (Hs : proctorStarted terminated_from_warning = true)
    by (vm_compute; reflexivity).
  destruct (proj1 terminated_is_one_way _ _ _ Ht Hr) as (H1 & H2 & H3).
  exact (conj H1 (conj H2 (H3 Hs))).
Defined.

(** C3, as stated, fails.  Two [warning-timer-expired] messages are handled
    while the session is in Warning; the first handler finds a violation
    and terminates the session; the second finds none, and the session does
    not return to Active: it stays Terminated. *)
Lemma expired_without_violation_not_active_counterexample :
  phase (state_after run_to_warning) = Warning
  /\ phase (state_after (run_to_warning ++ [IpcWarningTimerExpired 1]))
     = Warning
  /\ suspended (state_after (run_to_warning
                             ++ [IpcWarningTimerExpired 1;
                                 IpcWarningTimerExpired 1]))
     = [SuspExpired 1; SuspExpired 1]
  /\ violated (readings 1 os_compliant) = false
  /\ exists s,
       run init run_two_expiries = Some s
       /\ phase s = Terminated /\ phase s <> Active.
Proof.
  repeat split; try (vm_compute; reflexivity).
  eexists. split; [vm_compute; reflexivity |].
  split; [reflexivity | discriminate].
Qed.

Lemma phase_warning (s : State) :
  phase s = Warning ->
  sessionTerminated s = false /\ isShowingWarning s = true.
Proof.
  unfold phase. destruct (sessionTerminated s); [discriminate |].
  destruct (isShowingWarning s); [auto |].
  destruct (proctorStarted s); discriminate.
Qed.

(** C3, amended.  When the [warning-timer-expired] handler comes back from
    its probes, in whatever state the session then is, the fresh readings
    decide.  If a rule of the specification holds on them, the session is
    Terminated: no interval timer is left, the main window shows the
    terminated page, and a later start request changes nothing if the
    session had been started, as it has been whenever the handler resumes
    in Warning.  If no rule holds, the resolve timer is stopped, and a
    session in Warning is Active again, while a session in another state
    stays in that state.  Either way [warningWindow] is null afterwards and
    the window it held has been asked to close; no window is destroyed by
    the handler. *)
Theorem warning_timer_expired_decides
    (s : State) (k : nat) (displays : Z) (os : OS) :
  reachable s ->
  nth_error (suspended s) k = Some (SuspExpired displays) ->
  exists r s',
    probeAll displays os = inr r
    /\ step s (Resumes k os) = Some s'
    /\ (if violated r then
          phase s' = Terminated
          /\ timers s' = [] /\ monitoringInterval s' = None
          /\ resolveCheckInterval s' = None
          /\ mainContent s' = TerminatedPage
          /\ (proctorStarted s = true -> step s' IpcStartProctor = Some s')
        else
          phase s' = match phase s with
                     | Warning => Active
                     | other => other
                     end
          /\ resolveCheckInterval s' = None
          /\ timers s' = match monitoringInterval s with
                         | Some h => [(h, MonitorTimer)]
                         | None => []
                         end)
    /\ warningWindow s' = None
    /\ warningSurfaces s' = warningSurfaces s
    /\ closing s' = match warningWindow s with
                    | Some w => w :: closing s
                    | None => closing s
                    end
    /\ (phase s = Warning -> proctorStarted s = true).
Proof.
  intros Hr Hk.
  pose proof (reachable_Inv s Hr) as HI.
  destruct (probeAll_returns os displays) as [r [Hpr _]].
  destruct (probe_verdicts displays os r Hpr) as (_ & Hverdict & _).
  exists r. eexists. split; [exact Hpr |].
  cbn [step]. rewrite Hk. split; [reflexivity |].
  cbn [resume]. unfold expiredResume. rewrite Hpr, Hverdict.
  set (s1 := set_suspended (remove_nth k (suspended s)) s).
  assert (HI1 : Inv s1) by (apply Inv_remove_suspended; exact HI).
  assert (Hs1 : proctorStarted s1 = proctorStarted s
                /\ sessionTerminated s1 = sessionTerminated s
                /\ isShowingWarning s1 = isShowingWarning s
                /\ monitoringInterval s1 = monitoringInterval s
                /\ warningWindow s1 = warningWindow s
                /\ warningSurfaces s1 = warningSurfaces s
                /\ closing s1 = closing s).
  { subst s1. destruct s. cbn. repeat split. }
  destruct Hs1 as (Hps1 & Hnt1 & Hsw1 & Hmon1 & Hww1 & Hsf1 & Hcl1).
  assert (Hstarted : phase s = Warning -> proctorStarted s = true).
  { intros Hph. apply phase_warning in Hph as [_ Hsw].
    exact (proj1 (showing_implies_started s HI Hsw)). }
  destruct (violated r).
  - destruct (terminate_facts s1 HI1)
      as (Ht & Hw & Hm & Hres & Htm & Hww & Hsf & Hcl & Hmc & Hp & Hso).
    cbv zeta in *. unfold phase at 1. rewrite Ht, Hww, Hsf, Hcl.
    repeat split; try assumption; try congruence.
    intros Hps. apply start_rejected_when_started. congruence.
  - destruct (close_facts s1 HI1)
      as (Hw & Hres & Hww & Hsf & Hcl & Htm & Hm & Ht & Hp & Hmc).
    cbv zeta in *. rewrite Hww, Hsf, Hcl, Hres, Htm.
    repeat split; try assumption; try congruence.
    unfold phase. rewrite Ht, Hw, Hp, Hnt1, Hps1.
    destruct (sessionTerminated s); [reflexivity |].
    destruct (isShowingWarning s) eqn:Hsw.
    + now rewrite (proj1 (showing_implies_started s HI Hsw)).
    + destruct (proctorStarted s); reflexivity.
Qed.

(** The warning timer expires with every probe failing: the session is
    terminated. *)
Lemma warning_timer_expired_decides_witness :
  exists s',
    step (state_after run_to_expiry) (Resumes 0 os_all_fail) = Some s'
    /\ phase s' = Terminated /\ timers s' = []
    /\ mainContent s' = TerminatedPage /\ closing s' = [1].
Proof.
  assert (Hr : reachable (state_after run_to_expiry))
    by (exists run_to_expiry; vm_compute; reflexivity).
  assert (Hk : nth_error (suspended (state_after run_to_expiry)) 0
               = Some (SuspExpired 1))
    by (vm_compute; reflexivity).
  destruct (warning_timer_expired_decides _ 0 1 os_all_fail Hr Hk)
    as (r & s' & Hpr & Hstep & Hv & _ & _ & Hcl & _).
  exists s'. split; [exact Hstep |].
  vm_compute in Hpr. injection Hpr as <-.
  change (violated _) with true in Hv.
  destruct Hv as (Hph & Htm & _ & _ & Hmc & _).
  repeat split; try assumption.
Defined.

(** C4. [showWarningWindow] changes nothing, and so opens no second
    warning window, when a warning is showing, when the session is
    terminated, or when a warning window is open; otherwise it sets
    [isShowingWarning] and opens exactly one new warning window with the
    issue; and a second call right after a first changes nothing. *)
Theorem showWarningWindow_idempotent (s : State) (issue again : string) :
  (isShowingWarning s || sessionTerminated s || warningWindowLive s = true ->
   showWarningWindow issue s = s)
  /\ (isShowingWarning s || sessionTerminated s || warningWindowLive s = false ->
      let s' := showWarningWindow issue s in
      isShowingWarning s' = true
      /\ warningSurfaces s' = (nextHandle s, issue) :: warningSurfaces s
      /\ warningWindow s' = Some (nextHandle s)
      /\ sessionTerminated s' = false)
  /\ showWarningWindow again (showWarningWindow issue s)
     = showWarningWindow issue s.
Proof.
  split; [apply show_dropped |]. split; [apply show_opens |].
  destruct (show_guard s) eqn:Hg.
  - rewrite (show_dropped s issue Hg). now apply show_dropped.
  - apply show_dropped. unfold show_guard.
    now rewrite (proj1 (show_opens s issue Hg)).
Qed.

Lemma showWarningWindow_idempotent_witness :
  showWarningWindow "Bluetooth must be disabled" (state_after run_to_warning)
  = state_after run_to_warning.
Proof.
  apply (proj1 (showWarningWindow_idempotent (state_after run_to_warning)
                  "Bluetooth must be disabled" EmptyString)).
  vm_compute. reflexivity.
Defined.

(** C8. The code at the failing run: the resolve tick closes the first
    warning, which sets [warningWindow] to null and clears the flag as soon
    as [close()] has been called; the next monitor tick finds a violation
    before the first window is destroyed, and [showWarningWindow], whose
    guards look at the flag and the variable only, creates a second
    window: two warning windows exist.  When the [closed] event of the
    first window then comes, its listener sets [warningWindow] to null,
    though the variable held the second window. *)
Theorem second_warning_window_beside_first :
  exists s,
    run init run_to_second_warning = Some s
    /\ warningSurfaces s
       = [(3, "Zoom is not running"); (1, "Zoom is not running")]
    /\ closing s = [1]
    /\ warningWindow s = Some 3
    /\ isShowingWarning s = true
    /\ exists s',
         step s (WarningSurfaceClosed 1) = Some s'
         /\ warningSurfaces s' = [(3, "Zoom is not running")]
         /\ closing s' = []
         /\ warningWindow s' = None
         /\ isShowingWarning s' = true.
Proof.
  eexists. split; [vm_compute; reflexivity |].
  repeat split.
  eexists. split; [vm_compute; reflexivity |].
  repeat split.
Qed.

(* ===================================================================== *)
(** ** More about the probes *)
(* ===================================================================== *)

Lemma checkZoomCamera_closed (os : OS) :
  checkZoomCamera os =
  inr {| zoomRunning := printed os PgrepZoom;
         cameraInUse := printed os PgrepZoom && printed os IoregCamera;
         screenSharing :=
           printed os PgrepZoom
           && (printed os PgrepShare
               || (succeeded os PgrepShare && printed os LsofZoom)) |}.
Proof.
  unfold checkZoomCamera, execAsync, printed, succeeded. simpl.
  destruct (os PgrepZoom) as [ps|]; simpl; [| reflexivity].
  rewrite <- nonblank_all_space. destruct (nonblank ps); simpl; [| reflexivity].
  destruct (os IoregCamera) as [io|]; simpl;
    destruct (os PgrepShare) as [sh|]; simpl;
    rewrite <- ?nonblank_all_space;
    try destruct (nonblank sh); simpl;
    try destruct (os LsofZoom) as [ls|]; simpl;
    rewrite <- ?nonblank_all_space; try rewrite orb_false_r; reflexivity.
Qed.

Lemma probeAll_closed (displays : Z) (os : OS) :
  probeAll displays os =
  inr {| displayResult := displays;
         zoomResult :=
           {| zoomRunning := printed os PgrepZoom;
              cameraInUse := printed os PgrepZoom && printed os IoregCamera;
              screenSharing :=
                printed os PgrepZoom
                && (printed os PgrepShare
                    || (succeeded os PgrepShare && printed os LsofZoom)) |};
         bluetoothResult :=
           {| bluetoothEnabled :=
                match os ProfilerBluetooth with
                | Resolved stdout => includes ": on" (toLowerCase stdout)
                | Rejected => false
                end |};
         usbResult :=
           usbResultOf match os ProfilerUsb with
                       | Resolved stdout => usb_count_of_output stdout
                       | Rejected => 0%Z
                       end |}.
Proof.
  unfold probeAll, checkUsbDevices.
  rewrite checkZoomCamera_closed, checkBluetooth_returns,
    getUsbDeviceCount_returns.
  reflexivity.
Qed.

(** X1. The three flags of [checkZoomCamera] as functions of the four
    command outcomes: Zoom runs when the process query printed something
    besides white space; the camera is in use when, besides, the registry
    query did; the screen is shared when, besides, the helper-process query
    did, or succeeded without output and the open-handles query printed
    something.  So neither camera nor sharing is ever reported without a
    running Zoom. *)
Theorem zoom_flags_closed_form (os : OS) :
  exists z,
    checkZoomCamera os = inr z
    /\ zoomRunning z = printed os PgrepZoom
    /\ cameraInUse z = (printed os PgrepZoom && printed os IoregCamera)
    /\ screenSharing z
       = (printed os PgrepZoom
          && (printed os PgrepShare
              || (succeeded os PgrepShare && printed os LsofZoom)))
    /\ (zoomRunning z = false ->
        cameraInUse z = false /\ screenSharing z = false).
Proof.
  rewrite checkZoomCamera_closed. eexists. split; [reflexivity |].
  cbn. do 3 (split; [reflexivity |]). intros ->. split; reflexivity.
Qed.

(** X2. The readings a tick gets from its probes hang together: the display
    count is the one read at the start, the USB flag says whether the count
    is positive, the count is not negative, and the camera test
    [!zoomRunning || !cameraInUse] comes down to [!cameraInUse]. *)
Theorem readings_are_coherent (displays : Z) (os : OS) :
  exists r,
    probeAll displays os = inr r
    /\ displayResult r = displays
    /\ hasUsbDevices (usbResult r) = (0 <? count (usbResult r))%Z
    /\ (0 <= count (usbResult r))%Z
    /\ MonitorSite.hasCameraIssue r = negb (cameraInUse (zoomResult r))
    /\ (MonitorSite.issueMessage r = "Camera has been turned off" ->
        zoomRunning (zoomResult r) = true).
Proof.
  rewrite probeAll_closed. eexists. split; [reflexivity |].
  unfold MonitorSite.hasCameraIssue, MonitorSite.issueMessage,
    MonitorSite.hasDisplayIssue, MonitorSite.hasBluetoothIssue,
    MonitorSite.hasUsbIssue. cbn.
  repeat split.
  - destruct (os ProfilerUsb); [apply usb_count_nonneg | lia].
  - destruct (printed os PgrepZoom); reflexivity.
  - destruct (1 <? displays)%Z; [discriminate |].
    destruct (printed os PgrepZoom); cbn; [reflexivity | discriminate].
Qed.

Lemma verdicts_ignore_sharing (r : Readings) (sharing : bool) :
  let r' := {| displayResult := displayResult r;
               zoomResult :=
                 {| zoomRunning := zoomRunning (zoomResult r);
                    cameraInUse := cameraInUse (zoomResult r);
                    screenSharing := sharing |};
               bluetoothResult := bluetoothResult r;
               usbResult := usbResult r |} in
  MonitorSite.warning r' = MonitorSite.warning r
  /\ ResolveSite.resolved r' = ResolveSite.resolved r
  /\ ExpiredSite.anyIssue r' = ExpiredSite.anyIssue r.
Proof. repeat split. Qed.

(** X3. The screen-sharing flag is computed and never used: two
    environments that differ only in the answers to the helper-process and
    open-handles queries lead every parked callback (monitor, resolve,
    timer-expired) to the same state. *)
Theorem screen_sharing_never_matters
    (os1 os2 : OS) (c : Suspended) (s : State) :
  same_but_sharing os1 os2 -> resume c os1 s = resume c os2 s.
Proof.
  intros (Hz & Hc & Hb & Hu).
  assert (Hp : forall d,
             exists r sh1 sh2,
               probeAll d os1
               = inr {| displayResult := displayResult r;
                        zoomResult :=
                          {| zoomRunning := zoomRunning (zoomResult r);
                             cameraInUse := cameraInUse (zoomResult r);
                             screenSharing := sh1 |};
                        bluetoothResult := bluetoothResult r;
                        usbResult := usbResult r |}
               /\ probeAll d os2
                  = inr {| displayResult := displayResult r;
                           zoomResult :=
                             {| zoomRunning := zoomRunning (zoomResult r);
                                cameraInUse := cameraInUse (zoomResult r);
                                screenSharing := sh2 |};
                           bluetoothResult := bluetoothResult r;
                           usbResult := usbResult r |}).
  { intros d. rewrite !probeAll_closed. unfold printed.
    rewrite <- Hz, <- Hc, <- Hb, <- Hu. fold (printed os1 PgrepZoom).
    fold (printed os1 IoregCamera).
    eexists {| displayResult := d;
               zoomResult := {| zoomRunning := _; cameraInUse := _;
                                screenSharing := false |};
               bluetoothResult := _; usbResult := _ |}.
    eexists. eexists. cbn. split; reflexivity. }
  destruct c as [d|d|d]; cbn [resume];
    unfold monitorResume, resolveResume, expiredResume;
    destruct (Hp d) as (r & sh1 & sh2 & -> & ->);
    destruct (verdicts_ignore_sharing r sh1) as (E1 & E2 & E3);
    destruct (verdicts_ignore_sharing r sh2) as (F1 & F2 & F3);
    cbv zeta in *; rewrite ?E1, ?E2, ?E3, ?F1, ?F2, ?F3; reflexivity.
Qed.

Lemma screen_sharing_never_matters_witness :
  resume (SuspMonitor 1) os_compliant (state_after run_to_warning)
  = resume (SuspMonitor 1) os_sharing (state_after run_to_warning).
Proof.
  apply screen_sharing_never_matters. repeat split.
Defined.

Lemma filter_length_le {A : Type} (f : A -> bool) (l : list A) :
  List.length (filter f l) <= List.length l.
Proof.
  induction l as [|x l IH]; simpl; [lia |].
  destruct (f x); simpl; lia.
Qed.

(** X4. The parsing loop is additive: the count for two dumps joined by a
    line feed is the sum of their counts.  The count is never negative and
    never exceeds the number of device-name lines. *)
Theorem usb_scan_additive_and_bounded (a b : string) :
  usb_scan (a ++ String LF b) = (usb_scan a + usb_scan b)%Z
  /\ (0 <= usb_scan a
      <= Z.of_nat (List.length (filter is_device_line (split_lf a))))%Z.
Proof.
  rewrite !usb_scan_counts, split_lf_app, count_external_app.
  split; [reflexivity |]. unfold count_external.
  pose proof (filter_length_le external_line
                (filter is_device_line (split_lf a))). lia.
Qed.

(** X5. Four entries of the denylist never decide anything: [root hub],
    [usb bus], [host controller] and [ambient light sensor] each contain
    another entry, so a device-name line is classified by the other
    nineteen alone. *)
Theorem denylist_has_four_redundant_patterns (st : UsbScan) (line : string) :
  is_device_line line = true ->
  isExternalDevice (usb_scan_line st line)
  = negb (existsb (fun pattern => includes pattern (toLowerCase (trim line)))
            essentialPatterns).
Proof.
  intros Hd. unfold usb_scan_line. rewrite Hd. cbn [isExternalDevice].
  f_equal. set (dev := toLowerCase (trim line)).
  apply eq_iff_eq_true. rewrite !existsb_exists.
  split; intros [p [Hin Hp]]; simpl in Hin;
    repeat (destruct Hin as [<- | Hin]; [| try contradiction]);
    first
      [ solve [eexists; split; [| exact Hp]; simpl; auto 30]
      | solve [exists "controller"; split; [simpl; auto 30 |];
               apply (includes_trans _ "host controller");
               [reflexivity | exact Hp]]
      | solve [exists "hub"; split; [simpl; auto 30 |];
               apply (includes_trans _ "root hub"); [reflexivity | exact Hp]]
      | solve [exists "bus"; split; [simpl; auto 30 |];
               apply (includes_trans _ "usb bus"); [reflexivity | exact Hp]]
      | solve [exists "sensor"; split; [simpl; auto 30 |];
               apply (includes_trans _ "ambient light sensor");
               [reflexivity | exact Hp]] ].
Qed.

Lemma denylist_has_four_redundant_patterns_witness :
  isExternalDevice
    (usb_scan_line {| externalDeviceCount := 0; currentDevice := EmptyString;
                      isExternalDevice := false |}
       "    USB 3.1 Bus:")
  = negb (existsb (fun pattern =>
                     includes pattern (toLowerCase (trim "    USB 3.1 Bus:")))
            essentialPatterns).
Proof.
  apply denylist_has_four_redundant_patterns. vm_compute. reflexivity.
Defined.

(** X6. A line is a device-name line exactly when it begins with four
    spaces and a letter; the second test of the loop, that the line does
    not begin with six spaces, never rejects such a line. *)
Theorem device_line_iff (line : string) :
  is_device_line line = true <->
  exists c rest, line = "    " ++ String c rest /\ is_letter c = true.
Proof.
  unfold is_device_line. split.
  - intros H. apply andb_prop in H as [H _].
    destruct line as [|c1 [|c2 [|c3 [|c4 [|c rest]]]]]; try discriminate;
      try (destruct c1 as [[] [] [] [] [] [] [] []]; discriminate).
    all: destruct c1 as [[] [] [] [] [] [] [] []]; try discriminate;
      try (destruct c2 as [[] [] [] [] [] [] [] []]; discriminate).
    all: destruct c2 as [[] [] [] [] [] [] [] []]; try discriminate;
      try (destruct c3 as [[] [] [] [] [] [] [] []]; discriminate).
    all: destruct c3 as [[] [] [] [] [] [] [] []]; try discriminate;
      try (destruct c4 as [[] [] [] [] [] [] [] []]; discriminate).
    destruct c4 as [[] [] [] [] [] [] [] []]; try discriminate.
    exists c, rest. split; [reflexivity | exact H].
  - intros [c [rest [-> Hc]]]. cbn. rewrite Hc. cbn.
    destruct c as [[] [] [] [] [] [] [] []]; try discriminate Hc; reflexivity.
Qed.

(* ===================================================================== *)
(** ** Flag, tracked window and resolve timer go together *)
(* ===================================================================== *)

Lemma Coherent_init : Coherent init.
Proof. coherent_done. Qed.

Lemma Coherent_step (s s' : State) (e : Event) :
  Inv s -> Coherent s -> step s e = Some s' -> Coherent s'.
Proof.
  intros HI HC H. break_state s. break_inv HI.
  destruct HC as [c1 c2 c3 c4 c5 c6 c7]. cbn in c1, c2, c3, c4, c5, c6, c7.
  destruct terminated, showing; use_coherent; try discriminate;
    destruct ww as [w|]; use_coherent; try discriminate;
    try (pose proof (Hopen _ eq_refl) as Hlive;
         pose proof (c6 _ eq_refl) as Hfresh);
    destruct e as [| |th d|k os|d|w'| | | |url];
    cbn [step] in H; split_cases_in H; try discriminate H;
    injection H as <-; unfold_handlers; cbn; rewrite ?Hlive; cbn;
    split_cases;
    coherent_done.
  all: intros Hin; use_membership; lia.
Qed.

Lemma good_run (es : list Event) (s s' : State) :
  Inv s -> Coherent s -> run s es = Some s' -> Inv s' /\ Coherent s'.
Proof.
  revert s. induction es as [|e es IH]; intros s HI HC Hrun; simpl in Hrun.
  - injection Hrun as <-. auto.
  - destruct (step s e) as [s1|] eqn:He; [| discriminate].
    exact (IH s1 (Inv_step s s1 e HI He) (Coherent_step s s1 e HI HC He) Hrun).
Qed.

Lemma reachable_good (s : State) : reachable s -> Inv s /\ Coherent s.
Proof. intros [es Hes]. exact (good_run es init s Inv_init Coherent_init Hes). Qed.

Lemma not_showing_clean (s : State) :
  Coherent s -> isShowingWarning s = false ->
  warningWindow s = None /\ resolveCheckInterval s = None.
Proof.
  intros HC Hf. split.
  - destruct (warningWindow s) eqn:E; [| reflexivity].
    assert (X : isShowingWarning s = true)
      by (apply (coh_tracked_showing s HC); rewrite E; discriminate).
    congruence.
  - destruct (resolveCheckInterval s) eqn:E; [| reflexivity].
    assert (X : isShowingWarning s = true)
      by (apply (coh_resolve_showing s HC); rewrite E; discriminate).
    congruence.
Qed.

(** X7. In every reachable state a warning is showing exactly when the
    resolve timer runs; the window held in [warningWindow], if any, exists,
    has not been asked to close, and a warning is showing; and a
    terminated session shows no warning: flag clear, [warningWindow] null,
    no resolve timer. *)
Theorem warning_window_flag_and_resolve_timer (s : State) :
  reachable s ->
  (isShowingWarning s = true <->
   exists h, resolveCheckInterval s = Some h
             /\ In (h, ResolveTimer) (timers s))
  /\ (forall w, warningWindow s = Some w ->
        surface_open s w = true /\ ~ In w (closing s)
        /\ isShowingWarning s = true /\ sessionTerminated s = false)
  /\ (sessionTerminated s = true ->
      isShowingWarning s = false /\ warningWindow s = None
      /\ resolveCheckInterval s = None).
Proof.
  intros Hr. destruct (reachable_good s Hr) as [HI HC].
  assert (Hterm : isShowingWarning s = true -> sessionTerminated s = false).
  { intros Hf. destruct (sessionTerminated s) eqn:Ht; [| reflexivity].
    rewrite (coh_terminated s HC Ht) in Hf. discriminate. }
  split; [| split].
  - split.
    + intros Hf. pose proof (coh_showing_resolve s HC Hf) as Hres.
      destruct (resolveCheckInterval s) as [h|] eqn:E; [| contradiction].
      exists h. split; [reflexivity |].
      rewrite (inv_timers s HI). unfold tracked_timers. rewrite E.
      left. reflexivity.
    + intros [h [E _]]. apply (coh_resolve_showing s HC). rewrite E.
      discriminate.
  - intros w Hw.
    assert (Hf : isShowingWarning s = true)
      by (apply (coh_tracked_showing s HC); rewrite Hw; discriminate).
    split; [exact (inv_tracked_open s HI w Hw) |].
    split; [exact (coh_tracked_not_closing s HC w Hw) |].
    split; [exact Hf | exact (Hterm Hf)].
  - intros Ht. pose proof (coh_terminated s HC Ht) as Hf.
    split; [exact Hf |]. exact (not_showing_clean s HC Hf).
Qed.

Lemma warning_window_flag_and_resolve_timer_witness :
  exists h, resolveCheckInterval (state_after run_to_warning) = Some h
            /\ In (h, ResolveTimer) (timers (state_after run_to_warning)).
Proof.
  apply (warning_window_flag_and_resolve_timer (state_after run_to_warning)).
  - exists run_to_warning. vm_compute. reflexivity.
  - vm_compute. reflexivity.
Defined.

(** X8. No timer leaks: in every reachable state the live interval timers
    are exactly the ones held in [resolveCheckInterval] and
    [monitoringInterval], so at most one of each kind runs, and their
    handles differ. *)
Theorem no_timer_leak (s : State) :
  reachable s ->
  timers s = tracked_timers s
  /\ List.length (timers s) <= 2
  /\ NoDup (map fst (timers s)).
Proof.
  intros Hr. pose proof (reachable_Inv s Hr) as HI.
  pose proof (inv_distinct s HI) as Hd.
  rewrite (inv_timers s HI). unfold tracked_timers in *.
  split; [reflexivity |].
  destruct (resolveCheckInterval s) as [hr|], (monitoringInterval s) as [hm|];
    simpl; split; try lia; repeat constructor; simpl; try tauto.
  intros [E | []]. exact (Hd hm hr eq_refl eq_refl E).
Qed.

Lemma no_timer_leak_witness :
  timers (state_after run_to_warning)
  = tracked_timers (state_after run_to_warning)
  /\ List.length (timers (state_after run_to_warning)) <= 2
  /\ NoDup (map fst (timers (state_after run_to_warning))).
Proof.
  apply no_timer_leak. exists run_to_warning. vm_compute. reflexivity.
Defined.

(** X9. Before a start request nothing is monitored: as long as
    [proctorStarted] is false there is no interval timer, no warning window
    and no warning flag, whatever messages the renderer has sent. *)
Theorem nothing_runs_before_start (s : State) :
  reachable s -> proctorStarted s = false ->
  timers s = [] /\ warningSurfaces s = [] /\ isShowingWarning s = false
  /\ startTimeouts s = 0.
Proof.
  intros Hr Hp. pose proof (reachable_Inv s Hr) as HI.
  destruct (inv_premonitoring s HI (or_introl Hp))
    as (Hm & Hres & Hf & _ & Hs & _).
  split.
  - rewrite (inv_timers s HI). unfold tracked_timers. now rewrite Hm, Hres.
  - split; [exact Hs |]. split; [exact Hf |].
    exact (inv_not_started s HI Hp).
Qed.

Lemma nothing_runs_before_start_witness :
  timers (state_after run_terminated_before_start) = []
  /\ warningSurfaces (state_after run_terminated_before_start) = []
  /\ isShowingWarning (state_after run_terminated_before_start) = false
  /\ startTimeouts (state_after run_terminated_before_start) = 0.
Proof.
  apply nothing_runs_before_start.
  - exists run_terminated_before_start. vm_compute. reflexivity.
  - vm_compute. reflexivity.
Defined.

(** X10. The resolve callback's own cancelling branch is never taken: in a
    reachable state a live resolve timer means a warning is showing and the
    session is not terminated, so every firing of the timer goes on to
    probe. *)
Theorem resolve_tick_always_probes (s : State) (h : Handle) (displays : Z) :
  reachable s -> timer_kind s h = Some ResolveTimer ->
  isShowingWarning s = true /\ sessionTerminated s = false
  /\ step s (IntervalFires h displays)
     = Some (suspend (SuspResolve displays) s).
Proof.
  intros Hr Hk. destruct (reachable_good s Hr) as [HI HC].
  assert (Hres : resolveCheckInterval s <> None).
  { unfold timer_kind in Hk. rewrite (inv_timers s HI) in Hk.
    unfold tracked_timers in Hk.
    destruct (resolveCheckInterval s); [discriminate |].
    destruct (monitoringInterval s) as [hm|]; simpl in Hk;
      [destruct (hm =? h)%nat |]; discriminate. }
  pose proof (coh_resolve_showing s HC Hres) as Hf.
  assert (Ht : sessionTerminated s = false).
  { destruct (sessionTerminated s) eqn:E; [| reflexivity].
    rewrite (coh_terminated s HC E) in Hf. discriminate. }
  split; [exact Hf |]. split; [exact Ht |].
  cbn [step]. rewrite Hk. unfold resolveTick. now rewrite Hf, Ht.
Qed.

Lemma resolve_tick_always_probes_witness :
  isShowingWarning (state_after run_to_warning) = true
  /\ sessionTerminated (state_after run_to_warning) = false
  /\ step (state_after run_to_warning) (IntervalFires 2 1)
     = Some (suspend (SuspResolve 1) (state_after run_to_warning)).
Proof.
  apply resolve_tick_always_probes.
  - exists run_to_warning. vm_compute. reflexivity.
  - vm_compute. reflexivity.
Defined.

(* ===================================================================== *)
(** ** The two ticks *)
(* ===================================================================== *)

Lemma unpark_facts (k : nat) (s : State) :
  isShowingWarning (unpark k s) = isShowingWarning s
  /\ sessionTerminated (unpark k s) = sessionTerminated s
  /\ proctorStarted (unpark k s) = proctorStarted s
  /\ startTimeouts (unpark k s) = startTimeouts s
  /\ warningSurfaces (unpark k s) = warningSurfaces s
  /\ closing (unpark k s) = closing s
  /\ warningWindow (unpark k s) = warningWindow s
  /\ resolveCheckInterval (unpark k s) = resolveCheckInterval s
  /\ monitoringInterval (unpark k s) = monitoringInterval s
  /\ timers (unpark k s) = timers s
  /\ nextHandle (unpark k s) = nextHandle s
  /\ suspended (unpark k s) = remove_nth k (suspended s).
Proof. destruct s. repeat split. Qed.

Lemma show_from_clean (s : State) (issue : string) :
  isShowingWarning s = false -> sessionTerminated s = false ->
  warningWindow s = None -> resolveCheckInterval s = None ->
  let s' := showWarningWindow issue s in
  phase s' = Warning
  /\ warningSurfaces s' = (nextHandle s, issue) :: warningSurfaces s
  /\ closing s' = closing s
  /\ warningWindow s' = Some (nextHandle s)
  /\ resolveCheckInterval s' = Some (S (nextHandle s))
  /\ timers s' = (S (nextHandle s), ResolveTimer) :: timers s
  /\ suspended s' = suspended s.
Proof.
  intros Hf Ht Hw Hr. break_state s. cbn in Hf, Ht, Hw, Hr. subst.
  cbv zeta. unfold phase. repeat split.
Qed.

Lemma close_from_clean (s : State) :
  isShowingWarning s = false -> warningWindow s = None ->
  resolveCheckInterval s = None -> closeWarningWindow s = s.
Proof.
  intros Hf Hw Hr. break_state s. cbn in Hf, Hw, Hr. subst. reflexivity.
Qed.

(** X11. A monitor callback that comes back from its probes in a reachable
    state opens a warning exactly when a rule of the specification holds on
    the readings and neither a warning is showing nor the session is
    terminated: a new warning window with the message of the first rule
    that holds, next to the windows that still exist, and the resolve timer
    started next to the timers that were running.  In every other case it
    only leaves the list of parked callbacks. *)
Theorem monitor_tick_decides
    (s : State) (k : nat) (displays : Z) (os : OS) :
  reachable s ->
  nth_error (suspended s) k = Some (SuspMonitor displays) ->
  exists r s',
    probeAll displays os = inr r
    /\ step s (Resumes k os) = Some s'
    /\ match headline_of r with
       | Some kind =>
           if isShowingWarning s || sessionTerminated s then s' = unpark k s
           else
             phase s' = Warning
             /\ warningSurfaces s'
                = (nextHandle s, Spec.message kind) :: warningSurfaces s
             /\ closing s' = closing s
             /\ warningWindow s' = Some (nextHandle s)
             /\ resolveCheckInterval s' = Some (S (nextHandle s))
             /\ timers s' = (S (nextHandle s), ResolveTimer) :: timers s
             /\ suspended s' = remove_nth k (suspended s)
       | None => s' = unpark k s
       end.
Proof.
  intros Hr Hk. destruct (reachable_good s Hr) as [HI HC].
  destruct (probeAll_returns os displays) as [r [Hpr _]].
  destruct (probe_verdicts displays os r Hpr) as (Hverdict & _ & _).
  exists r. eexists. split; [exact Hpr |].
  cbn [step]. rewrite Hk. split; [reflexivity |].
  cbn [resume]. unfold monitorResume. rewrite Hpr, Hverdict.
  fold (unpark k s).
  destruct (unpark_facts k s)
    as (Uf & Ut & _ & _ & Us & Uc & Uw & Ur & _ & Utm & Un & Usu).
  destruct (headline_of r) as [kind|]; cbn [option_map]; [| reflexivity].
  destruct (isShowingWarning s || sessionTerminated s) eqn:Hg.
  - apply show_dropped. unfold show_guard. now rewrite Uf, Ut, Hg.
  - apply orb_false_elim in Hg as [Hf Ht].
    destruct (not_showing_clean s HC Hf) as (Hw & Hres).
    rewrite <- Un, <- Utm, <- Usu, <- Us, <- Uc.
    apply show_from_clean; congruence.
Qed.

(** The camera is off when the first monitor callback comes back. *)
Lemma monitor_tick_decides_witness :
  exists s',
    step (state_after [IpcStartProctor; StartTimeoutFires; IntervalFires 0 1])
      (Resumes 0 os_camera_off) = Some s'
    /\ phase s' = Warning
    /\ warningSurfaces s' = [(1, "Camera has been turned off")]
    /\ timers s' = [(2, ResolveTimer); (0, MonitorTimer)].
Proof.
  assert (Hr : reachable (state_after [IpcStartProctor; StartTimeoutFires;
                                       IntervalFires 0 1]))
    by (exists [IpcStartProctor; StartTimeoutFires; IntervalFires 0 1];
        vm_compute; reflexivity).
  assert (Hk : nth_error
                 (suspended (state_after [IpcStartProctor; StartTimeoutFires;
                                          IntervalFires 0 1])) 0
               = Some (SuspMonitor 1))
    by (vm_compute; reflexivity).
  destruct (monitor_tick_decides _ 0 1 os_camera_off Hr Hk)
    as (r & s' & Hpr & Hstep & Hv).
  exists s'. split; [exact Hstep |].
  vm_compute in Hpr. injection Hpr as <-.
  change (headline_of _) with (Some Spec.CameraInactive) in Hv.
  change (isShowingWarning _ || sessionTerminated _) with false in Hv.
  destruct Hv as (Hph & Hs & _ & _ & _ & Htm & _).
  repeat split; assumption.
Defined.

(** X12. A resolve callback that comes back from its probes in a reachable
    state closes the warning exactly when a warning is showing and no rule
    of the specification holds on the readings: the session is Active
    again, the resolve timer is gone and only the monitor timer is left,
    [warningWindow] is null and the window it held has been asked to close.
    In every other case it only leaves the list of parked callbacks. *)
Theorem resolve_tick_decides
    (s : State) (k : nat) (displays : Z) (os : OS) :
  reachable s ->
  nth_error (suspended s) k = Some (SuspResolve displays) ->
  exists r s',
    probeAll displays os = inr r
    /\ step s (Resumes k os) = Some s'
    /\ if violated r || negb (isShowingWarning s) then s' = unpark k s
       else
         phase s' = Active
         /\ resolveCheckInterval s' = None
         /\ timers s' = match monitoringInterval s with
                        | Some h => [(h, MonitorTimer)]
                        | None => []
                        end
         /\ warningWindow s' = None
         /\ warningSurfaces s' = warningSurfaces s
         /\ closing s' = match warningWindow s with
                         | Some w => w :: closing s
                         | None => closing s
                         end.
Proof.
  intros Hr Hk. destruct (reachable_good s Hr) as [HI HC].
  destruct (probeAll_returns os displays) as [r [Hpr _]].
  destruct (probe_verdicts displays os r Hpr) as (_ & _ & Hverdict).
  exists r. eexists. split; [exact Hpr |].
  cbn [step]. rewrite Hk. split; [reflexivity |].
  cbn [resume]. unfold resolveResume. rewrite Hpr, Hverdict.
  fold (unpark k s).
  destruct (unpark_facts k s)
    as (Uf & Ut & Up & _ & Us & Uc & Uw & Ur & Um & _ & _ & _).
  assert (HI1 : Inv (unpark k s)) by (apply Inv_remove_suspended; exact HI).
  destruct (violated r); cbn [negb orb]; [reflexivity |].
  destruct (isShowingWarning s) eqn:Hf; cbn [negb].
  - destruct (close_facts (unpark k s) HI1)
      as (Hw & Hres & Hww & Hsf & Hcl & Htm & Hm & Ht & Hp & _).
    cbv zeta in *.
    destruct (showing_implies_started s HI Hf) as [Hps _].
    assert (Hnt : sessionTerminated s = false).
    { destruct (sessionTerminated s) eqn:E; [| reflexivity].
      rewrite (coh_terminated s HC E) in Hf. discriminate. }
    unfold phase. rewrite Ht, Ut, Hnt, Hw, Hp, Up, Hps, Htm, Um, Hsf, Us,
      Hcl, Uw, Uc.
    repeat split; assumption.
  - destruct (not_showing_clean s HC Hf) as (Hw & Hres).
    apply close_from_clean; congruence.
Qed.

(** The environment is compliant when the first resolve callback comes
    back. *)
Lemma resolve_tick_decides_witness :
  exists s',
    step (state_after (run_to_warning ++ [IntervalFires 2 1]))
      (Resumes 0 os_compliant) = Some s'
    /\ phase s' = Active /\ timers s' = [(0, MonitorTimer)]
    /\ warningWindow s' = None /\ closing s' = [1].
Proof.
  assert (Hr : reachable (state_after (run_to_warning ++ [IntervalFires 2 1])))
    by (exists (run_to_warning ++ [IntervalFires 2 1])%list;
        vm_compute; reflexivity).
  assert (Hk : nth_error
                 (suspended (state_after (run_to_warning
                                          ++ [IntervalFires 2 1]))) 0
               = Some (SuspResolve 1))
    by (vm_compute; reflexivity).
  destruct (resolve_tick_decides _ 0 1 os_compliant Hr Hk)
    as (r & s' & Hpr & Hstep & Hv).
  exists s'. split; [exact Hstep |].
  vm_compute in Hpr. injection Hpr as <-.
  change (violated _ || negb (isShowingWarning _)) with false in Hv.
  destruct Hv as (Hph & _ & Htm & Hw & _ & Hcl).
  repeat split; assumption.
Defined.

(* ===================================================================== *)
(** ** What happens once, and what never happens again *)
(* ===================================================================== *)

Lemma begun_step (s s' : State) (e : Event) :
  monitoring_begun s -> step s e = Some s' -> monitoring_begun s'.
Proof.
  intros [Hp Hz] H. break_state s. cbn in Hp, Hz. subst.
  destruct e as [| |h d|k os|d|w| | | |url];
    cbn [step] in H; split_cases_in H;
    try discriminate H; injection H as <-;
    unfold_handlers; cbn; split_cases; split; reflexivity.
Qed.

Lemma begun_run (es : list Event) (s s' : State) :
  monitoring_begun s -> run s es = Some s' -> monitoring_begun s'.
Proof.
  revert s. induction es as [|e es IH]; intros s Hb Hrun; simpl in Hrun.
  - now injection Hrun as <-.
  - destruct (step s e) as [s1|] eqn:He; [| discriminate].
    exact (IH s1 (begun_step s s1 e Hb He) Hrun).
Qed.

(** X13. Monitoring is started once per process: after the start timeout
    has run [startActiveMonitoring], no later event sequence lets it run
    again, and every later start request changes nothing. *)
Theorem monitoring_starts_once (s s1 s2 : State) (es : list Event) :
  reachable s -> step s StartTimeoutFires = Some s1 ->
  run s1 es = Some s2 ->
  step s2 StartTimeoutFires = None /\ step s2 IpcStartProctor = Some s2.
Proof.
  intros Hr H1 Hrun. pose proof (reachable_Inv s Hr) as HI.
  cbn [step] in H1.
  destruct (startTimeouts s) as [|n] eqn:Hn; cbn in H1; [discriminate |].
  injection H1 as <-.
  assert (Hb : monitoring_begun (startTimeout s)).
  { pose proof (inv_start_once s HI) as Hle.
    pose proof (inv_not_started s HI) as Hns.
    break_state s. cbn in *. subst. split.
    - destruct started; [reflexivity |].
      specialize (Hns eq_refl). discriminate.
    - cbn. lia. }
  destruct (begun_run es _ s2 Hb Hrun) as [Hp Hz].
  split.
  - cbn [step]. now rewrite Hz.
  - now apply start_rejected_when_started.
Qed.

Lemma monitoring_starts_once_witness :
  step (state_after run_to_warning) StartTimeoutFires = None
  /\ step (state_after run_to_warning) IpcStartProctor
     = Some (state_after run_to_warning).
Proof.
  apply (monitoring_starts_once (state_after [IpcStartProctor])
           (state_after [IpcStartProctor; StartTimeoutFires])
           (state_after run_to_warning)
           [IntervalFires 0 1; Resumes 0 os_all_fail]).
  - exists [IpcStartProctor]. vm_compute. reflexivity.
  - vm_compute. reflexivity.
  - vm_compute. reflexivity.
Defined.

Lemma window_open_loaded (url loaded : string) :
  fst (windowOpenHandler url) = Some loaded ->
  loaded = url
  /\ includes "chess.com" url || includes "buddyboardgames.com" url = true.
Proof.
  unfold windowOpenHandler.
  destruct (includes "chess.com" url || includes "buddyboardgames.com" url);
    cbn; [| discriminate].
  intros [= <-]. split; reflexivity.
Qed.

Lemma quiescent_step (s s' : State) (e : Event) :
  quiescent s -> step s e = Some s' -> quiescent s'.
Proof.
  intros (Ht & Hp & Hz & Htm & Hf & Hw & Hm) H. break_state s.
  cbn in Ht, Hp, Hz, Htm, Hf, Hw, Hm. subst.
  destruct e as [| |h d|k os|d|w| | | |url].
  10:{ cbn [step] in H. injection H as <-. unfold onWindowOpen.
       destruct (fst (windowOpenHandler url)) as [loaded|] eqn:Hurl.
       - apply window_open_loaded in Hurl as [-> Hurl].
         repeat split. right. now exists url.
       - repeat split. exact Hm. }
  all: cbn [step] in H; unfold timer_kind in H;
    cbn [timers find option_map startTimeouts Nat.ltb Nat.leb] in H;
    split_cases_in H; try discriminate H; injection H as <-;
    unfold_handlers; cbn; split_cases; repeat split;
    try reflexivity; try assumption;
    try (left; reflexivity).
Qed.

(** X14. A session that was monitored and then terminated stays dead: with
    [sessionTerminated] and [proctorStarted] set, no start timeout pending,
    no timer, no warning flag and [warningWindow] null, every later event
    leaves it so.  The main window keeps the terminated page until the
    window-open handler loads a URL into it, which it does whenever a page
    asks to open a URL that contains [chess.com] or [buddyboardgames.com],
    terminated session or not. *)
Theorem terminated_session_stays_quiet (s s' : State) (es : list Event) :
  quiescent s -> run s es = Some s' ->
  quiescent s'
  /\ (forall url,
        includes "chess.com" url || includes "buddyboardgames.com" url = true ->
        exists s'', step s' (WindowOpenRequested url) = Some s''
                    /\ mainContent s'' = LoadedUrl url /\ quiescent s'').
Proof.
  intros Hq Hrun.
  assert (Hq' : quiescent s').
  { revert s Hq Hrun. induction es as [|e es IH]; intros s Hq Hrun;
      simpl in Hrun.
    - now injection Hrun as <-.
    - destruct (step s e) as [s1|] eqn:He; [| discriminate].
      exact (IH s1 (quiescent_step s s1 e Hq He) Hrun). }
  split; [exact Hq' |]. intros url Hurl.
  eexists. split; [reflexivity |]. split.
  - unfold onWindowOpen, windowOpenHandler. rewrite Hurl. cbn.
    destruct s'; reflexivity.
  - apply (quiescent_step s' _ (WindowOpenRequested url) Hq'). reflexivity.
Qed.

Lemma terminated_session_stays_quiet_witness :
  quiescent (state_after (run_to_expiry
                          ++ [Resumes 0 os_all_fail; IpcStartProctor;
                              IpcWarningTimerExpired 1;
                              Resumes 0 os_compliant; IpcEndProctor])).
Proof.
  apply (terminated_session_stays_quiet terminated_from_warning _
           [IpcStartProctor; IpcWarningTimerExpired 1;
            Resumes 0 os_compliant; IpcEndProctor]).
  - repeat split; try (vm_compute; reflexivity). left. reflexivity.
  - vm_compute. reflexivity.
Defined.

Lemma no_new_surface_step (s s' : State) (e : Event) :
  sessionTerminated s = true -> step s e = Some s' ->
  incl (warningSurfaces s') (warningSurfaces s).
Proof.
  intros Ht H. break_state s. cbn in Ht. subst.
  destruct showing, e as [| |h d|k os|d|w| | | |url];
    cbn [step] in H; split_cases_in H;
    try discriminate H; injection H as <-;
    unfold_handlers; cbn; split_cases;
    first [ apply incl_refl | apply incl_filter ].
Qed.

(** X15. After termination no warning window is ever opened: whatever
    events follow, every warning window that is open later was open when
    the session was already terminated. *)
Theorem no_warning_after_termination (s s' : State) (es : list Event) :
  sessionTerminated s = true -> run s es = Some s' ->
  incl (warningSurfaces s') (warningSurfaces s).
Proof.
  revert s. induction es as [|e es IH]; intros s Ht Hrun; simpl in Hrun.
  - injection Hrun as <-. apply incl_refl.
  - destruct (step s e) as [s1|] eqn:He; [| discriminate].
    apply (incl_tran (m := warningSurfaces s1)).
    + apply IH; [| exact Hrun].
      exact (proj1 (stimulate_flags s s1 (Happens e) He) Ht).
    + exact (no_new_surface_step s s1 e Ht He).
Qed.

Lemma no_warning_after_termination_witness :
  incl (warningSurfaces
          (state_after (run_terminated_before_start
                        ++ [IpcStartProctor; StartTimeoutFires;
                            IntervalFires 0 1])))
       (warningSurfaces (state_after run_terminated_before_start)).
Proof.
  apply (no_warning_after_termination _ _
           [IpcStartProctor; StartTimeoutFires; IntervalFires 0 1]);
    vm_compute; reflexivity.
Defined.

Lemma closeWarningWindow_fixed (s : State) :
  isShowingWarning s = false -> resolveCheckInterval s = None ->
  warningWindowLive s = false -> closeWarningWindow s = s.
Proof.
  intros Hf Hr Hl. unfold closeWarningWindow, stopResolveCheck. rewrite Hr.
  unfold closeWarningIfOpen. unfold warningWindowLive in Hl.
  destruct (warningWindow s); rewrite ?Hl;
    destruct s; cbn in Hf; subst; reflexivity.
Qed.

Lemma terminateChessSession_fixed (s : State) :
  sessionTerminated s = true -> isShowingWarning s = false ->
  monitoringInterval s = None -> resolveCheckInterval s = None ->
  warningWindowLive s = false -> mainSimpleFullScreen s = false ->
  mainContent s = TerminatedPage -> terminateChessSession s = s.
Proof.
  intros Ht Hf Hm Hr Hl Hfs Hc. unfold warningWindowLive in Hl.
  break_state s. cbn in Ht, Hf, Hm, Hr, Hl, Hfs, Hc. subst.
  unfold terminateChessSession, stopMonitoring, stopResolveCheck,
    closeWarningIfOpen. cbn.
  destruct ww; cbn; rewrite ?Hl; reflexivity.
Qed.

Lemma close_leaves (s : State) :
  let s' := closeWarningWindow s in
  isShowingWarning s' = false /\ resolveCheckInterval s' = None
  /\ warningWindowLive s' = false.
Proof.
  break_state s. unfold closeWarningWindow, stopResolveCheck,
    closeWarningIfOpen, requestClose, warningWindowLive, surface_open,
    clearInterval. cbn.
  destruct res as [hr|], ww as [w|]; cbn;
    try (destruct (existsb (fun x : nat * string => (fst x =? w)%nat) surf)
           eqn:Hex; cbn; rewrite ?Hex);
    repeat split; reflexivity.
Qed.

Lemma terminate_leaves (s : State) :
  let s' := terminateChessSession s in
  sessionTerminated s' = true /\ isShowingWarning s' = false
  /\ monitoringInterval s' = None /\ resolveCheckInterval s' = None
  /\ warningWindowLive s' = false /\ mainSimpleFullScreen s' = false
  /\ mainContent s' = TerminatedPage.
Proof.
  break_state s. unfold terminateChessSession, stopMonitoring,
    stopResolveCheck, closeWarningIfOpen, requestClose, warningWindowLive,
    surface_open, clearInterval. cbn.
  destruct mon as [hm|], res as [hr|], ww as [w|]; cbn;
    try (destruct (existsb (fun x : nat * string => (fst x =? w)%nat) surf)
           eqn:Hex; cbn; rewrite ?Hex);
    repeat split; reflexivity.
Qed.

(** X16. Closing and terminating are idempotent, and closing after a
    termination changes nothing: a second [closeWarningWindow] or
    [terminateChessSession] right after the first leaves the state as the
    first left it. *)
Theorem close_and_terminate_idempotent (s : State) :
  closeWarningWindow (closeWarningWindow s) = closeWarningWindow s
  /\ terminateChessSession (terminateChessSession s) = terminateChessSession s
  /\ closeWarningWindow (terminateChessSession s) = terminateChessSession s.
Proof.
  destruct (close_leaves s) as (C1 & C2 & C3).
  destruct (terminate_leaves s) as (T1 & T2 & T3 & T4 & T5 & T6 & T7).
  cbv zeta in *. split; [| split].
  - now apply closeWarningWindow_fixed.
  - now apply terminateChessSession_fixed.
  - now apply closeWarningWindow_fixed.
Qed.

(** X23. A warning window is opened by one event only: a monitor callback
    that comes back from its probes while no warning is showing and the
    session is not terminated; it then sets the flag.  Every other event,
    and every event at all while [isShowingWarning] or [sessionTerminated]
    is set, opens none; and a monitor tick that fires then is dropped
    without a change of state. *)
Theorem warning_opens_only_from_monitor (s s' : State) (e : Event) :
  step s e = Some s' ->
  (incl (warningSurfaces s') (warningSurfaces s)
   \/ (isShowingWarning s = false /\ sessionTerminated s = false
       /\ isShowingWarning s' = true
       /\ exists k os displays issue,
            e = Resumes k os
            /\ nth_error (suspended s) k = Some (SuspMonitor displays)
            /\ warningSurfaces s' = (nextHandle s, issue) :: warningSurfaces s))
  /\ (isShowingWarning s || sessionTerminated s = true ->
      incl (warningSurfaces s') (warningSurfaces s)
      /\ forall h displays,
           e = IntervalFires h displays ->
           timer_kind s h = Some MonitorTimer -> s' = s).
Proof.
  intros H.
  assert (Hdrop : isShowingWarning s || sessionTerminated s = true ->
                  incl (warningSurfaces s') (warningSurfaces s)).
  { intros Hg. break_state s. cbn in Hg.
    destruct showing, terminated; try discriminate Hg;
      destruct e as [| |h d|k os|d|w| | | |url];
      cbn [step] in H; split_cases_in H;
      try discriminate H; injection H as <-;
      unfold_handlers; cbn; split_cases;
      first [ apply incl_refl | apply incl_filter ]. }
  split.
  - destruct (isShowingWarning s || sessionTerminated s) eqn:Hg;
      [left; now apply Hdrop |].
    apply orb_false_elim in Hg as [Hf Ht]. clear Hdrop.
    destruct e as [| |h d|k os|d|w| | | |url]; cbn [step] in H.
    4:{ destruct (nth_error (suspended s) k) as [c|] eqn:Hk; [| discriminate].
        injection H as <-.
        set (s1 := set_suspended (remove_nth k (suspended s)) s).
        assert (Hs1 : warningSurfaces s1 = warningSurfaces s
                      /\ nextHandle s1 = nextHandle s)
          by (subst s1; destruct s; split; reflexivity).
        destruct Hs1 as [Hsf Hn].
        destruct c as [d|d|d]; cbn [resume].
        - unfold monitorResume.
          destruct (probeAll d os) as [|r];
            [left; rewrite Hsf; apply incl_refl |].
          destruct (MonitorSite.warning r) as [issue|];
            [| left; rewrite Hsf; apply incl_refl].
          destruct (show_guard s1) eqn:Hg.
          + left. rewrite (show_dropped s1 issue Hg), Hsf. apply incl_refl.
          + right. destruct (show_opens s1 issue Hg) as (Hf' & Hs' & _).
            cbv zeta in *. repeat split; try assumption.
            exists k, os, d, issue. rewrite Hs', Hsf, Hn. now repeat split.
        - left. unfold resolveResume.
          destruct (probeAll d os) as [|r]; [rewrite Hsf; apply incl_refl |].
          destruct (ResolveSite.resolved r); [| rewrite Hsf; apply incl_refl].
          rewrite <- Hsf. clearbody s1. clear. break_state s1.
          unfold_handlers. cbn. split_cases; apply incl_refl.
        - left. unfold expiredResume.
          destruct (probeAll d os) as [|r]; [rewrite Hsf; apply incl_refl |].
          rewrite <- Hsf. clearbody s1. clear. break_state s1.
          destruct (ExpiredSite.anyIssue r);
            unfold_handlers; cbn; split_cases; apply incl_refl. }
    all: left; break_state s; split_cases_in H; try discriminate H;
      injection H as <-; unfold_handlers; cbn; split_cases;
      first [ apply incl_refl | apply incl_filter ].
  - intros Hg. split; [now apply Hdrop |].
    intros h d -> Hk. cbn [step] in H. rewrite Hk in H.
    unfold monitorTick in H. rewrite orb_comm, Hg in H. now injection H.
Qed.

(** While the first warning is showing, a monitor callback that was parked
    before comes back with a violation: no second window. *)
Lemma warning_opens_only_from_monitor_witness :
  incl (warningSurfaces
          (state_after [IpcStartProctor; StartTimeoutFires; IntervalFires 0 1;
                        IntervalFires 0 1; Resumes 0 os_all_fail;
                        Resumes 0 os_all_fail]))
       (warningSurfaces
          (state_after [IpcStartProctor; StartTimeoutFires; IntervalFires 0 1;
                        IntervalFires 0 1; Resumes 0 os_all_fail])).
Proof.
  apply (warning_opens_only_from_monitor
           (state_after [IpcStartProctor; StartTimeoutFires; IntervalFires 0 1;
                         IntervalFires 0 1; Resumes 0 os_all_fail])
           _ (Resumes 0 os_all_fail)); vm_compute; reflexivity.
Defined.

(* ===================================================================== *)
(** ** Quitting and updates *)
(* ===================================================================== *)

Lemma quit_guard_run (es : list QuitGuard.Event) :
  QuitGuard.run true es = (true, 0).
Proof.
  induction es as [|e es IH]; simpl; [reflexivity |].
  destruct e; simpl; rewrite IH; reflexivity.
Qed.

(** X18. The quit guard never holds anything back: [allowQuit] starts
    true and every assignment to it writes true, so after any sequence of
    events it is still true and no [close] of the main window and no
    [before-quit] has been prevented. *)
Theorem quit_is_never_prevented (es : list QuitGuard.Event) :
  QuitGuard.run QuitGuard.initial es = (true, 0)
  /\ forall e, snd (QuitGuard.handle (fst (QuitGuard.run QuitGuard.initial es)) e)
               = false.
Proof.
  unfold QuitGuard.initial. rewrite quit_guard_run. split; [reflexivity |].
  intros e. destruct e; reflexivity.
Qed.

Lemma updater_progress_run (u : Updater.UpdateStatus) (ps : list Z) (p : Z) :
  Updater.run u (map Updater.DownloadProgress (ps ++ [p]))
  = {| Updater.status := Updater.Downloading;
       Updater.version := Updater.version u;
       Updater.progress := Some p;
       Updater.error := None |}.
Proof.
  unfold Updater.run. revert u. induction ps as [|q ps IH]; intros u; simpl.
  - reflexivity.
  - rewrite IH. reflexivity.
Qed.

Lemma updater_invariant (es : list Updater.Event) (u : Updater.UpdateStatus) :
  let ok u :=
    (Updater.status u = Updater.Failed <-> Updater.error u <> None)
    /\ (Updater.progress u <> None -> Updater.status u = Updater.Downloading)
    /\ (Updater.status u = Updater.Ready -> Updater.version u <> None) in
  ok u -> ok (Updater.run u es).
Proof.
  cbv zeta. unfold Updater.run. revert u.
  induction es as [|e es IH]; intros u Hu; simpl; [exact Hu |].
  apply IH. destruct e; cbn; repeat split; try discriminate; try tauto;
    intros; congruence.
Qed.

(** X19. The update status keeps its shape under every sequence of updater
    events: [error] is set exactly when the status is the error status, a
    progress figure is present only while downloading, and a ready update
    has a version.  Progress events carry the version along: after any
    number of them the status is downloading with the version it had
    before and the last figure. *)
Theorem update_status_shape (es : list Updater.Event) :
  let u := Updater.run Updater.initial es in
  (Updater.status u = Updater.Failed <-> Updater.error u <> None)
  /\ (Updater.progress u <> None -> Updater.status u = Updater.Downloading)
  /\ (Updater.status u = Updater.Ready -> Updater.version u <> None)
  /\ forall ps p,
       Updater.run u (map Updater.DownloadProgress (ps ++ [p]))
       = {| Updater.status := Updater.Downloading;
            Updater.version := Updater.version u;
            Updater.progress := Some p;
            Updater.error := None |}.
Proof.
  cbv zeta.
  destruct (updater_invariant es Updater.initial) as (H1 & H2 & H3).
  { cbn. repeat split; try discriminate; try tauto; intros; congruence. }
  split; [exact H1 |]. split; [exact H2 |]. split; [exact H3 |].
  intros ps p. apply updater_progress_run.
Qed.

(* ===================================================================== *)
(** ** The End Proctor button *)
(* ===================================================================== *)

Lemma button_ok_step (b b' : EndButton.Button) (e : EndButton.Event) :
  button_ok b -> EndButton.step b e = Some b' -> button_ok b'.
Proof.
  intros [Hidle Hcount] H. destruct b as [c t bg cu sl iv sent].
  cbn in Hidle, Hcount. destruct e as [confirmed| | |]; cbn in H.
  - injection H as <-. unfold EndButton.click. cbn.
    destruct c; [split; assumption |].
    destruct confirmed; [| split; assumption].
    split; cbn; [discriminate |]. intros _. repeat split.
    exists 15%Z. split; [reflexivity |]. left. repeat split; lia.
  - destruct iv; [| discriminate]. injection H as <-.
    destruct c.
    + destruct (Hcount eq_refl) as (Hbg & Hcu & n & Hsl & Hcase).
      destruct Hcase as [(_ & Hs & Hn & Ht) | (Hiv & _)]; [| discriminate].
      subst. unfold EndButton.tick. cbn.
      destruct (0 <? n - 1)%Z eqn:Hpos; split; cbn; try discriminate;
        intros _; repeat split; eexists; (split; [reflexivity |]).
      * left. apply Z.ltb_lt in Hpos. repeat split; lia.
      * right. apply Z.ltb_ge in Hpos. repeat split. lia.
    + destruct (Hidle eq_refl) as (_ & Hiv & _). discriminate.
  - injection H as <-. unfold EndButton.recolor. cbn.
    destruct c; split; cbn; try discriminate; assumption.
  - injection H as <-. unfold EndButton.recolor. cbn.
    destruct c; split; cbn; try discriminate; assumption.
Qed.

Lemma button_ok_run (es : list EndButton.Event) (b b' : EndButton.Button) :
  button_ok b -> EndButton.run b es = Some b' -> button_ok b'.
Proof.
  revert b. induction es as [|e es IH]; intros b Hb Hrun; simpl in Hrun.
  - now injection Hrun as <-.
  - destruct (EndButton.step b e) as [b1|] eqn:He; [| discriminate].
    exact (IH b1 (button_ok_step b b1 e Hb He) Hrun).
Qed.

Lemma button_ok_initial : button_ok EndButton.initial.
Proof. split; cbn; [intros _; repeat split | discriminate]. Qed.

(** X20. [end-proctor] is sent at most once per page, whatever the user
    clicks and however long the page lives; once it is sent the countdown
    interval is cleared and the button reads Ending; and while the button
    counts, hovering does not change its grey background. *)
Theorem end_proctor_sent_at_most_once
    (es : list EndButton.Event) (b : EndButton.Button) :
  EndButton.run EndButton.initial es = Some b ->
  EndButton.endProctorSent b <= 1
  /\ (EndButton.endProctorSent b = 1 ->
      EndButton.countdownInterval b = false
      /\ EndButton.textContent b = "Ending...")
  /\ (EndButton.counting b = true -> EndButton.background b = "#6c757d").
Proof.
  intros Hrun.
  destruct (button_ok_run es _ b button_ok_initial Hrun) as [Hidle Hcount].
  destruct (EndButton.counting b).
  - destruct (Hcount eq_refl) as (Hbg & _ & n & _ & Hcase).
    destruct Hcase as [(Hiv & Hs & _) | (Hiv & Hs & _ & Ht)]; rewrite Hs;
      (split; [lia |]); (split; [| intros _; assumption]);
      intros E; solve [discriminate E | split; assumption].
  - destruct (Hidle eq_refl) as (Hs & _). rewrite Hs.
    split; [lia |]. split; intros E; discriminate E.
Qed.

Lemma end_proctor_sent_at_most_once_witness :
  exists b,
    EndButton.run EndButton.initial
      (EndButton.Click true :: EndButton.MouseEnter
       :: repeat EndButton.Tick 15 ++ [EndButton.Click true])
    = Some b
    /\ EndButton.endProctorSent b <= 1
    /\ (EndButton.endProctorSent b = 1 ->
        EndButton.countdownInterval b = false
        /\ EndButton.textContent b = "Ending...")
    /\ (EndButton.counting b = true -> EndButton.background b = "#6c757d").
Proof.
  eexists. split; [vm_compute; reflexivity |].
  apply (end_proctor_sent_at_most_once
           (EndButton.Click true :: EndButton.MouseEnter
            :: repeat EndButton.Tick 15 ++ [EndButton.Click true])).
  vm_compute. reflexivity.
Defined.

(** X21. A confirmed click on the idle button starts a countdown of
    fifteen seconds: after [k] ticks, [k] below 15, the button reads
    Ending in [15 - k] and nothing was sent; the fifteenth tick sends
    [end-proctor] and clears the interval, so there is no sixteenth; and a
    click during the countdown changes nothing. *)
Theorem countdown_takes_fifteen_ticks (b : EndButton.Button) (k : nat) :
  EndButton.counting b = false -> k < 15 ->
  EndButton.run (EndButton.click true b) (repeat EndButton.Tick k)
  = Some (counting_down (EndButton.endProctorSent b) k)
  /\ EndButton.click true (counting_down (EndButton.endProctorSent b) k)
     = counting_down (EndButton.endProctorSent b) k
  /\ option_map EndButton.endProctorSent
       (EndButton.run (EndButton.click true b) (repeat EndButton.Tick 15))
     = Some (S (EndButton.endProctorSent b))
  /\ EndButton.run (EndButton.click true b) (repeat EndButton.Tick 16) = None.
Proof.
  intros Hc Hk. destruct b as [c t bg cu sl iv sent]. cbn in Hc. subst c.
  split; [| split; [reflexivity | split; vm_compute; reflexivity]].
  do 15 (destruct k as [|k]; [vm_compute; reflexivity |]). lia.
Qed.

Lemma countdown_takes_fifteen_ticks_witness :
  EndButton.run (EndButton.click true EndButton.initial)
    (repeat EndButton.Tick 14)
  = Some (counting_down 0 14)
  /\ EndButton.click true (counting_down 0 14) = counting_down 0 14
  /\ option_map EndButton.endProctorSent
       (EndButton.run (EndButton.click true EndButton.initial)
          (repeat EndButton.Tick 15))
     = Some 1
  /\ EndButton.run (EndButton.click true EndButton.initial)
       (repeat EndButton.Tick 16) = None.
Proof.
  apply (countdown_takes_fifteen_ticks EndButton.initial 14);
    [reflexivity | lia].
Defined.

(* ===================================================================== *)
(** ** End Proctor in the main process *)
(* ===================================================================== *)

Lemma monitor_stays_stopped_step (s s' : State) (e : Event) :
  monitoring_begun s -> monitoringInterval s = None ->
  step s e = Some s' -> monitoringInterval s' = None.
Proof.
  intros [Hp Hz] Hm H. break_state s. cbn in Hp, Hz, Hm. subst.
  destruct e as [| |h d|k os|d|w| | | |url];
    cbn [step startTimeouts Nat.ltb Nat.leb] in H; split_cases_in H;
    try discriminate H; injection H as <-;
    unfold_handlers; cbn; split_cases; reflexivity.
Qed.

Lemma monitor_stays_stopped (es : list Event) (s s' : State) :
  monitoring_begun s -> monitoringInterval s = None ->
  run s es = Some s' -> monitoringInterval s' = None.
Proof.
  revert s. induction es as [|e es IH]; intros s Hb Hm Hrun; simpl in Hrun.
  - now injection Hrun as <-.
  - destruct (step s e) as [s1|] eqn:He; [| discriminate].
    exact (IH s1 (begun_step s s1 e Hb He)
             (monitor_stays_stopped_step s s1 e Hb Hm He) Hrun).
Qed.

(** X22. End Proctor stops the monitor for good: once monitoring has begun,
    the [end-proctor] handler leaves no monitor timer, sets [warningWindow]
    to null after asking the window it held to close, asks for the quit
    timeout, and no later event sequence brings a monitor timer back. *)
Theorem end_proctor_stops_monitoring (s s' : State) (es : list Event) :
  reachable s -> monitoring_begun s ->
  run (onEndProctor s) es = Some s' ->
  warningWindow (onEndProctor s) = None
  /\ closing (onEndProctor s) = match warningWindow s with
                                | Some w => w :: closing s
                                | None => closing s
                                end
  /\ endTimeouts (onEndProctor s) = S (endTimeouts s)
  /\ monitoringInterval s' = None
  /\ forall h, timer_kind s' h <> Some MonitorTimer.
Proof.
  intros Hr Hb Hrun. pose proof (reachable_Inv s Hr) as HI.
  assert (Hr1 : reachable (onEndProctor s))
    by (apply (reachable_run [IpcEndProctor] s); [exact Hr | reflexivity]).
  assert (Hb1 : monitoring_begun (onEndProctor s))
    by (apply (begun_step s _ IpcEndProctor Hb); reflexivity).
  assert (Hfacts : warningWindow (onEndProctor s) = None
                   /\ closing (onEndProctor s)
                      = match warningWindow s with
                        | Some w => w :: closing s
                        | None => closing s
                        end
                   /\ endTimeouts (onEndProctor s) = S (endTimeouts s)
                   /\ monitoringInterval (onEndProctor s) = None).
  { clear Hrun Hr1 Hb1 Hr Hb. break_state s. break_inv HI.
    unfold onEndProctor, stopMonitoring, closeWarningIfOpen, requestClose,
      surface_open, clearInterval. cbn.
    destruct mon as [hm|], ww as [w|]; cbn;
      try rewrite (Hopen _ eq_refl); repeat split. }
  destruct Hfacts as (Hw & Hc & He & Hm).
  split; [exact Hw |]. split; [exact Hc |]. split; [exact He |].
  pose proof (monitor_stays_stopped es _ s' Hb1 Hm Hrun) as Hm'.
  split; [exact Hm' |].
  intros h Hk. pose proof (reachable_Inv s' (reachable_run es _ s' Hr1 Hrun)) as HI'.
  unfold timer_kind in Hk. rewrite (inv_timers s' HI') in Hk.
  unfold tracked_timers in Hk. rewrite Hm' in Hk.
  destruct (resolveCheckInterval s') as [hr|]; simpl in Hk;
    [destruct (hr =? h)%nat |]; discriminate.
Qed.

Lemma end_proctor_stops_monitoring_witness :
  warningWindow (onEndProctor (state_after run_to_warning)) = None
  /\ closing (onEndProctor (state_after run_to_warning)) = [1]
  /\ endTimeouts (onEndProctor (state_after run_to_warning))
     = S (endTimeouts (state_after run_to_warning))
  /\ monitoringInterval
       (state_after (run_to_warning ++ [IpcEndProctor; IntervalFires 2 1;
                                        Resumes 0 os_all_fail]))
     = None
  /\ forall h,
       timer_kind
         (state_after (run_to_warning ++ [IpcEndProctor; IntervalFires 2 1;
                                          Resumes 0 os_all_fail])) h
       <> Some MonitorTimer.
Proof.
  apply (end_proctor_stops_monitoring (state_after run_to_warning) _
           [IntervalFires 2 1; Resumes 0 os_all_fail]).
  - exists run_to_warning. vm_compute. reflexivity.
  - split; vm_compute; reflexivity.
  - vm_compute. reflexivity.
Defined.
